(** * Daly BMS over CAN: the frame decoders and the polling cycle

    A shallow embedding of [etc/dbus-serialbattery/bms/daly_can.py]
    (class [Daly_Can]) and the properties of its decoders.

    Conventions of the embedding:
    - a payload is a [list byte]; Python integers are [Z]; Python floats are
      IEEE binary64 numbers ([PrimFloat.float]), so that [/] and [<] are the
      operations the interpreter performs;
    - a method is a function from the state of the world (the driver object,
      the CAN bus, the frame cache, the clock) to an outcome: a returned
      value, a raised exception, or a read that blocks on a silent bus;
    - calls to [logger] have no effect on the state and are left out. *)

From Stdlib Require Import ZArith List Strings.String Strings.Ascii Strings.Byte Bool Lia.
From Stdlib Require Import Floats Uint63 DecimalString.
From stdpp Require Import base list.

Import ListNotations.
Local Open Scope Z_scope.

(* Decimal literals such as 2.1 denote the nearest binary64 number, as they
   do for the interpreter. *)
Set Warnings "-inexact-float".

(** ** Exceptions raised by the interpreter on the paths of this file *)

Inductive exn : Type :=
  | StructError      (* struct.error: bad format, or buffer too short *)
  | AttributeError   (* attribute of None *)
  | IndexError       (* list index out of range *)
  | ValueError       (* tuple of the wrong length in an unpacking assignment *)
  | TypeError        (* comparison of an integer with None *)
  | KeyError.        (* missing dictionary key *)

Inductive result (A : Type) : Type :=
  | Ok (a : A)
  | Err (e : exn).
Arguments Ok {A} a.
Arguments Err {A} e.

(** ** [struct.unpack_from] for the big-endian formats of the driver *)

Module Struct.

(** The format characters the interpreter accepts, as far as the driver
    uses them. *)
Inductive code : Type :=
  | Pad      (* x : one pad byte, no value *)
  | Int8     (* b *)
  | UInt8    (* B *)
  | Bool8    (* ? *)
  | Int16    (* h *)
  | UInt16   (* H *)
  | UInt32.  (* L *)

Inductive value : Type :=
  | VInt (z : Z)
  | VBool (b : bool).

Definition code_of_ascii (c : ascii) : option code :=
  match c with
  | "x"%char => Some Pad
  | "b"%char => Some Int8
  | "B"%char => Some UInt8
  | "?"%char => Some Bool8
  | "h"%char => Some Int16
  | "H"%char => Some UInt16
  | "L"%char => Some UInt32
  | _ => None
  end.

Fixpoint codes_of_string (s : string) : option (list code) :=
  match s with
  | EmptyString => Some []
  | String c rest =>
      match code_of_ascii c, codes_of_string rest with
      | Some k, Some ks => Some (k :: ks)
      | _, _ => None
      end
  end.

(** Every format of the driver starts with [>]: big-endian, standard
    sizes, no alignment.  A character that is not a format character is
    rejected ("bad char in struct format"). *)
Definition parse_format (format : string) : option (list code) :=
  match format with
  | String ">"%char rest => codes_of_string rest
  | _ => None
  end.

Definition size_of (k : code) : nat :=
  match k with
  | Pad | Int8 | UInt8 | Bool8 => 1%nat
  | Int16 | UInt16 => 2%nat
  | UInt32 => 4%nat
  end.

Definition calcsize (ks : list code) : nat :=
  fold_right (fun k n => (size_of k + n)%nat) 0%nat ks.

Definition byte_val (b : byte) : Z := Z.of_N (Byte.to_N b).

(** Big-endian unsigned value of a run of bytes. *)
Definition uint_be (bs : list byte) : Z :=
  fold_left (fun acc b => acc * 256 + byte_val b) bs 0.

(** Two's complement reading of the same run. *)
Definition int_be (bs : list byte) : Z :=
  let u := uint_be bs in
  let w := 8 * Z.of_nat (length bs) in
  if u <? 2 ^ (w - 1) then u else u - 2 ^ w.

Definition decode (k : code) (bs : list byte) : option value :=
  match k with
  | Pad => None
  | Int8 | Int16 => Some (VInt (int_be bs))
  | UInt8 | UInt16 | UInt32 => Some (VInt (uint_be bs))
  | Bool8 => Some (VBool (negb (uint_be bs =? 0)))
  end.

Fixpoint unpack (ks : list code) (bs : list byte) : list value :=
  match ks with
  | [] => []
  | k :: ks' =>
      let field := take (size_of k) bs in
      let rest := unpack ks' (drop (size_of k) bs) in
      match decode k field with
      | Some v => v :: rest
      | None => rest
      end
  end.

(** [unpack_from(format, buffer, offset)]: the values of the fields, or
    [struct.error] when the format is bad or fewer than [calcsize] bytes
    are left at [offset]. *)
Definition unpack_from (format : string) (buffer : list byte) (offset : nat)
  : result (list value) :=
  match parse_format format with
  | None => Err StructError
  | Some ks =>
      if (offset + calcsize ks <=? length buffer)%nat
      then Ok (unpack ks (take (calcsize ks) (drop offset buffer)))
      else Err StructError
  end.

End Struct.

Import Struct.

(** ** Numbers

    [a / b] on two Python integers and every mixed operation convert the
    integer operand to binary64 first.  The conversion below is exact for
    [|z| < 2^53], which covers every integer the driver converts (16- and
    32-bit wire fields and small constants). *)

Definition float_of_int (z : Z) : float :=
  if z <? 0 then PrimFloat.opp (PrimFloat.of_uint63 (Uint63.of_Z (- z)))
  else PrimFloat.of_uint63 (Uint63.of_Z z).

(** [a / b], true division of two integers. *)
Definition truediv (a b : Z) : float :=
  PrimFloat.div (float_of_int a) (float_of_int b).

(** [str(n)] of an integer. *)
Definition str (n : Z) : string := NilZero.string_of_int (Z.to_int n).

(** ** The constants imported from [utils] *)

Record Utils : Type := {
  BATTERY_CAPACITY : float;
  INVERT_CURRENT_MEASUREMENT : Z;      (* 1, or -1 to flip the sign *)
  MAX_BATTERY_CHARGE_CURRENT : float;
  MAX_BATTERY_DISCHARGE_CURRENT : float;
  MIN_CELL_VOLTAGE : float
}.

(** ** The battery model *)

Module Cell.
(** Modelled from the spec: class [Cell] of [battery.py], of which the
    driver uses the constructor [Cell(balance)] and the attribute
    [voltage]; a reading not yet decoded is "unknown" ([None]). *)
Record t : Type := { voltage : option float; balance : option bool }.
Definition new (b : bool) : t := {| voltage := None; balance := Some b |}.
Definition set_voltage (v : option float) (c : t) : t :=
  {| voltage := v; balance := balance c |}.
End Cell.

Module Protection.
(** The severities [self.protection.*] the alarm decoder assigns:
    0 clear, 1 pre-alarm, 2 alarm; [None] until first assigned. *)
Record t : Type := {
  high_voltage : option Z;
  low_voltage : option Z;
  high_charge_temp : option Z;
  low_charge_temp : option Z;
  high_temperature : option Z;
  low_temperature : option Z;
  high_charge_current : option Z;
  low_soc : option Z
}.
Definition set_high_voltage (v : option Z) (p : t) : t :=
  {| high_voltage := v; low_voltage := low_voltage p;
     high_charge_temp := high_charge_temp p; low_charge_temp := low_charge_temp p;
     high_temperature := high_temperature p; low_temperature := low_temperature p;
     high_charge_current := high_charge_current p; low_soc := low_soc p |}.
Definition set_low_voltage (v : option Z) (p : t) : t :=
  {| high_voltage := high_voltage p; low_voltage := v;
     high_charge_temp := high_charge_temp p; low_charge_temp := low_charge_temp p;
     high_temperature := high_temperature p; low_temperature := low_temperature p;
     high_charge_current := high_charge_current p; low_soc := low_soc p |}.
Definition set_high_charge_temp (v : option Z) (p : t) : t :=
  {| high_voltage := high_voltage p; low_voltage := low_voltage p; high_charge_temp := v;
     low_charge_temp := low_charge_temp p; high_temperature := high_temperature p;
     low_temperature := low_temperature p; high_charge_current := high_charge_current p;
     low_soc := low_soc p |}.
Definition set_low_charge_temp (v : option Z) (p : t) : t :=
  {| high_voltage := high_voltage p; low_voltage := low_voltage p;
     high_charge_temp := high_charge_temp p; low_charge_temp := v;
     high_temperature := high_temperature p; low_temperature := low_temperature p;
     high_charge_current := high_charge_current p; low_soc := low_soc p |}.
Definition set_high_temperature (v : option Z) (p : t) : t :=
  {| high_voltage := high_voltage p; low_voltage := low_voltage p;
     high_charge_temp := high_charge_temp p; low_charge_temp := low_charge_temp p;
     high_temperature := v; low_temperature := low_temperature p;
     high_charge_current := high_charge_current p; low_soc := low_soc p |}.
Definition set_low_temperature (v : option Z) (p : t) : t :=
  {| high_voltage := high_voltage p; low_voltage := low_voltage p;
     high_charge_temp := high_charge_temp p; low_charge_temp := low_charge_temp p;
     high_temperature := high_temperature p; low_temperature := v;
     high_charge_current := high_charge_current p; low_soc := low_soc p |}.
Definition set_high_charge_current (v : option Z) (p : t) : t :=
  {| high_voltage := high_voltage p; low_voltage := low_voltage p;
     high_charge_temp := high_charge_temp p; low_charge_temp := low_charge_temp p;
     high_temperature := high_temperature p; low_temperature := low_temperature p;
     high_charge_current := v; low_soc := low_soc p |}.
Definition set_low_soc (v : option Z) (p : t) : t :=
  {| high_voltage := high_voltage p; low_voltage := low_voltage p;
     high_charge_temp := high_charge_temp p; low_charge_temp := low_charge_temp p;
     high_temperature := high_temperature p; low_temperature := low_temperature p;
     high_charge_current := high_charge_current p; low_soc := v |}.
End Protection.

Module History.
Record t : Type := { charge_cycles : option Z }.
End History.

(** [self.can_bus] is a reference to the one bus object of the world, or
    [None] as the constructor leaves it. *)
Inductive BusRef : Type := TheBus.

(** The attributes of a [Daly_Can] object that the methods below read or
    assign: those its constructor sets, those it inherits from [Battery]
    (an attribute not yet assigned is [None]), and the [command_*] request
    ids, which the methods read but which get their values outside this
    file.  [last_error_time] starts as the integer 0, here 0.0. *)
Record Daly_Can : Type := {
  cell_count : option Z;
  temp_sensors : option Z;
  history : History.t;
  hardware_version : option string;
  voltage : option float;
  current : option float;
  soc : option float;
  protection : Protection.t;
  cells : list Cell.t;
  temp1 : option Z;
  temp2 : option Z;
  charge_fet : option bool;
  discharge_fet : option bool;
  capacity_remain : option float;
  capacity : option float;
  charger_connected : option bool;
  load_connected : option bool;
  cell_min_voltage : option float;
  cell_max_voltage : option float;
  cell_min_no : option Z;
  cell_max_no : option Z;
  poll_interval : Z;
  poll_step : Z;
  can_bus : option BusRef;
  device_address : Z;
  error_active : bool;
  last_error_time : float;
  command_status : Z;
  command_soc : Z;
  command_fet : Z;
  command_alarm : Z;
  command_cell_volts : Z;
  command_minmax_cell_volts : Z;
  command_minmax_temp : Z
}.

Definition set_cell_count (v : option Z) (s : Daly_Can) : Daly_Can :=
  {| cell_count := v; temp_sensors := temp_sensors s; history := history s;
     hardware_version := hardware_version s; voltage := voltage s; current := current s;
     soc := soc s; protection := protection s; cells := cells s; temp1 := temp1 s;
     temp2 := temp2 s; charge_fet := charge_fet s; discharge_fet := discharge_fet s;
     capacity_remain := capacity_remain s; capacity := capacity s;
     charger_connected := charger_connected s; load_connected := load_connected s;
     cell_min_voltage := cell_min_voltage s; cell_max_voltage := cell_max_voltage s;
     cell_min_no := cell_min_no s; cell_max_no := cell_max_no s;
     poll_interval := poll_interval s; poll_step := poll_step s; can_bus := can_bus s;
     device_address := device_address s; error_active := error_active s;
     last_error_time := last_error_time s; command_status := command_status s;
     command_soc := command_soc s; command_fet := command_fet s;
     command_alarm := command_alarm s; command_cell_volts := command_cell_volts s;
     command_minmax_cell_volts := command_minmax_cell_volts s;
     command_minmax_temp := command_minmax_temp s |}.
Definition set_temp_sensors (v : option Z) (s : Daly_Can) : Daly_Can :=
  {| cell_count := cell_count s; temp_sensors := v; history := history s;
     hardware_version := hardware_version s; voltage := voltage s; current := current s;
     soc := soc s; protection := protection s; cells := cells s; temp1 := temp1 s;
     temp2 := temp2 s; charge_fet := charge_fet s; discharge_fet := discharge_fet s;
     capacity_remain := capacity_remain s; capacity := capacity s;
     charger_connected := charger_connected s; load_connected := load_connected s;
     cell_min_voltage := cell_min_voltage s; cell_max_voltage := cell_max_voltage s;
     cell_min_no := cell_min_no s; cell_max_no := cell_max_no s;
     poll_interval := poll_interval s; poll_step := poll_step s; can_bus := can_bus s;
     device_address := device_address s; error_active := error_active s;
     last_error_time := last_error_time s; command_status := command_status s;
     command_soc := command_soc s; command_fet := command_fet s;
     command_alarm := command_alarm s; command_cell_volts := command_cell_volts s;
     command_minmax_cell_volts := command_minmax_cell_volts s;
     command_minmax_temp := command_minmax_temp s |}.
Definition set_history (v : History.t) (s : Daly_Can) : Daly_Can :=
  {| cell_count := cell_count s; temp_sensors := temp_sensors s; history := v;
     hardware_version := hardware_version s; voltage := voltage s; current := current s;
     soc := soc s; protection := protection s; cells := cells s; temp1 := temp1 s;
     temp2 := temp2 s; charge_fet := charge_fet s; discharge_fet := discharge_fet s;
     capacity_remain := capacity_remain s; capacity := capacity s;
     charger_connected := charger_connected s; load_connected := load_connected s;
     cell_min_voltage := cell_min_voltage s; cell_max_voltage := cell_max_voltage s;
     cell_min_no := cell_min_no s; cell_max_no := cell_max_no s;
     poll_interval := poll_interval s; poll_step := poll_step s; can_bus := can_bus s;
     device_address := device_address s; error_active := error_active s;
     last_error_time := last_error_time s; command_status := command_status s;
     command_soc := command_soc s; command_fet := command_fet s;
     command_alarm := command_alarm s; command_cell_volts := command_cell_volts s;
     command_minmax_cell_volts := command_minmax_cell_volts s;
     command_minmax_temp := command_minmax_temp s |}.
Definition set_hardware_version (v : option string) (s : Daly_Can) : Daly_Can :=
  {| cell_count := cell_count s; temp_sensors := temp_sensors s; history := history s;
     hardware_version := v; voltage := voltage s; current := current s; soc := soc s;
     protection := protection s; cells := cells s; temp1 := temp1 s; temp2 := temp2 s;
     charge_fet := charge_fet s; discharge_fet := discharge_fet s;
     capacity_remain := capacity_remain s; capacity := capacity s;
     charger_connected := charger_connected s; load_connected := load_connected s;
     cell_min_voltage := cell_min_voltage s; cell_max_voltage := cell_max_voltage s;
     cell_min_no := cell_min_no s; cell_max_no := cell_max_no s;
     poll_interval := poll_interval s; poll_step := poll_step s; can_bus := can_bus s;
     device_address := device_address s; error_active := error_active s;
     last_error_time := last_error_time s; command_status := command_status s;
     command_soc := command_soc s; command_fet := command_fet s;
     command_alarm := command_alarm s; command_cell_volts := command_cell_volts s;
     command_minmax_cell_volts := command_minmax_cell_volts s;
     command_minmax_temp := command_minmax_temp s |}.
Definition set_voltage (v : option float) (s : Daly_Can) : Daly_Can :=
  {| cell_count := cell_count s; temp_sensors := temp_sensors s; history := history s;
     hardware_version := hardware_version s; voltage := v; current := current s;
     soc := soc s; protection := protection s; cells := cells s; temp1 := temp1 s;
     temp2 := temp2 s; charge_fet := charge_fet s; discharge_fet := discharge_fet s;
     capacity_remain := capacity_remain s; capacity := capacity s;
     charger_connected := charger_connected s; load_connected := load_connected s;
     cell_min_voltage := cell_min_voltage s; cell_max_voltage := cell_max_voltage s;
     cell_min_no := cell_min_no s; cell_max_no := cell_max_no s;
     poll_interval := poll_interval s; poll_step := poll_step s; can_bus := can_bus s;
     device_address := device_address s; error_active := error_active s;
     last_error_time := last_error_time s; command_status := command_status s;
     command_soc := command_soc s; command_fet := command_fet s;
     command_alarm := command_alarm s; command_cell_volts := command_cell_volts s;
     command_minmax_cell_volts := command_minmax_cell_volts s;
     command_minmax_temp := command_minmax_temp s |}.
Definition set_current (v : option float) (s : Daly_Can) : Daly_Can :=
  {| cell_count := cell_count s; temp_sensors := temp_sensors s; history := history s;
     hardware_version := hardware_version s; voltage := voltage s; current := v;
     soc := soc s; protection := protection s; cells := cells s; temp1 := temp1 s;
     temp2 := temp2 s; charge_fet := charge_fet s; discharge_fet := discharge_fet s;
     capacity_remain := capacity_remain s; capacity := capacity s;
     charger_connected := charger_connected s; load_connected := load_connected s;
     cell_min_voltage := cell_min_voltage s; cell_max_voltage := cell_max_voltage s;
     cell_min_no := cell_min_no s; cell_max_no := cell_max_no s;
     poll_interval := poll_interval s; poll_step := poll_step s; can_bus := can_bus s;
     device_address := device_address s; error_active := error_active s;
     last_error_time := last_error_time s; command_status := command_status s;
     command_soc := command_soc s; command_fet := command_fet s;
     command_alarm := command_alarm s; command_cell_volts := command_cell_volts s;
     command_minmax_cell_volts := command_minmax_cell_volts s;
     command_minmax_temp := command_minmax_temp s |}.
Definition set_soc (v : option float) (s : Daly_Can) : Daly_Can :=
  {| cell_count := cell_count s; temp_sensors := temp_sensors s; history := history s;
     hardware_version := hardware_version s; voltage := voltage s; current := current s;
     soc := v; protection := protection s; cells := cells s; temp1 := temp1 s;
     temp2 := temp2 s; charge_fet := charge_fet s; discharge_fet := discharge_fet s;
     capacity_remain := capacity_remain s; capacity := capacity s;
     charger_connected := charger_connected s; load_connected := load_connected s;
     cell_min_voltage := cell_min_voltage s; cell_max_voltage := cell_max_voltage s;
     cell_min_no := cell_min_no s; cell_max_no := cell_max_no s;
     poll_interval := poll_interval s; poll_step := poll_step s; can_bus := can_bus s;
     device_address := device_address s; error_active := error_active s;
     last_error_time := last_error_time s; command_status := command_status s;
     command_soc := command_soc s; command_fet := command_fet s;
     command_alarm := command_alarm s; command_cell_volts := command_cell_volts s;
     command_minmax_cell_volts := command_minmax_cell_volts s;
     command_minmax_temp := command_minmax_temp s |}.
Definition set_protection (v : Protection.t) (s : Daly_Can) : Daly_Can :=
  {| cell_count := cell_count s; temp_sensors := temp_sensors s; history := history s;
     hardware_version := hardware_version s; voltage := voltage s; current := current s;
     soc := soc s; protection := v; cells := cells s; temp1 := temp1 s; temp2 := temp2 s;
     charge_fet := charge_fet s; discharge_fet := discharge_fet s;
     capacity_remain := capacity_remain s; capacity := capacity s;
     charger_connected := charger_connected s; load_connected := load_connected s;
     cell_min_voltage := cell_min_voltage s; cell_max_voltage := cell_max_voltage s;
     cell_min_no := cell_min_no s; cell_max_no := cell_max_no s;
     poll_interval := poll_interval s; poll_step := poll_step s; can_bus := can_bus s;
     device_address := device_address s; error_active := error_active s;
     last_error_time := last_error_time s; command_status := command_status s;
     command_soc := command_soc s; command_fet := command_fet s;
     command_alarm := command_alarm s; command_cell_volts := command_cell_volts s;
     command_minmax_cell_volts := command_minmax_cell_volts s;
     command_minmax_temp := command_minmax_temp s |}.
Definition set_cells (v : list Cell.t) (s : Daly_Can) : Daly_Can :=
  {| cell_count := cell_count s; temp_sensors := temp_sensors s; history := history s;
     hardware_version := hardware_version s; voltage := voltage s; current := current s;
     soc := soc s; protection := protection s; cells := v; temp1 := temp1 s;
     temp2 := temp2 s; charge_fet := charge_fet s; discharge_fet := discharge_fet s;
     capacity_remain := capacity_remain s; capacity := capacity s;
     charger_connected := charger_connected s; load_connected := load_connected s;
     cell_min_voltage := cell_min_voltage s; cell_max_voltage := cell_max_voltage s;
     cell_min_no := cell_min_no s; cell_max_no := cell_max_no s;
     poll_interval := poll_interval s; poll_step := poll_step s; can_bus := can_bus s;
     device_address := device_address s; error_active := error_active s;
     last_error_time := last_error_time s; command_status := command_status s;
     command_soc := command_soc s; command_fet := command_fet s;
     command_alarm := command_alarm s; command_cell_volts := command_cell_volts s;
     command_minmax_cell_volts := command_minmax_cell_volts s;
     command_minmax_temp := command_minmax_temp s |}.
Definition set_temp1 (v : option Z) (s : Daly_Can) : Daly_Can :=
  {| cell_count := cell_count s; temp_sensors := temp_sensors s; history := history s;
     hardware_version := hardware_version s; voltage := voltage s; current := current s;
     soc := soc s; protection := protection s; cells := cells s; temp1 := v;
     temp2 := temp2 s; charge_fet := charge_fet s; discharge_fet := discharge_fet s;
     capacity_remain := capacity_remain s; capacity := capacity s;
     charger_connected := charger_connected s; load_connected := load_connected s;
     cell_min_voltage := cell_min_voltage s; cell_max_voltage := cell_max_voltage s;
     cell_min_no := cell_min_no s; cell_max_no := cell_max_no s;
     poll_interval := poll_interval s; poll_step := poll_step s; can_bus := can_bus s;
     device_address := device_address s; error_active := error_active s;
     last_error_time := last_error_time s; command_status := command_status s;
     command_soc := command_soc s; command_fet := command_fet s;
     command_alarm := command_alarm s; command_cell_volts := command_cell_volts s;
     command_minmax_cell_volts := command_minmax_cell_volts s;
     command_minmax_temp := command_minmax_temp s |}.
Definition set_temp2 (v : option Z) (s : Daly_Can) : Daly_Can :=
  {| cell_count := cell_count s; temp_sensors := temp_sensors s; history := history s;
     hardware_version := hardware_version s; voltage := voltage s; current := current s;
     soc := soc s; protection := protection s; cells := cells s; temp1 := temp1 s;
     temp2 := v; charge_fet := charge_fet s; discharge_fet := discharge_fet s;
     capacity_remain := capacity_remain s; capacity := capacity s;
     charger_connected := charger_connected s; load_connected := load_connected s;
     cell_min_voltage := cell_min_voltage s; cell_max_voltage := cell_max_voltage s;
     cell_min_no := cell_min_no s; cell_max_no := cell_max_no s;
     poll_interval := poll_interval s; poll_step := poll_step s; can_bus := can_bus s;
     device_address := device_address s; error_active := error_active s;
     last_error_time := last_error_time s; command_status := command_status s;
     command_soc := command_soc s; command_fet := command_fet s;
     command_alarm := command_alarm s; command_cell_volts := command_cell_volts s;
     command_minmax_cell_volts := command_minmax_cell_volts s;
     command_minmax_temp := command_minmax_temp s |}.
Definition set_charge_fet (v : option bool) (s : Daly_Can) : Daly_Can :=
  {| cell_count := cell_count s; temp_sensors := temp_sensors s; history := history s;
     hardware_version := hardware_version s; voltage := voltage s; current := current s;
     soc := soc s; protection := protection s; cells := cells s; temp1 := temp1 s;
     temp2 := temp2 s; charge_fet := v; discharge_fet := discharge_fet s;
     capacity_remain := capacity_remain s; capacity := capacity s;
     charger_connected := charger_connected s; load_connected := load_connected s;
     cell_min_voltage := cell_min_voltage s; cell_max_voltage := cell_max_voltage s;
     cell_min_no := cell_min_no s; cell_max_no := cell_max_no s;
     poll_interval := poll_interval s; poll_step := poll_step s; can_bus := can_bus s;
     device_address := device_address s; error_active := error_active s;
     last_error_time := last_error_time s; command_status := command_status s;
     command_soc := command_soc s; command_fet := command_fet s;
     command_alarm := command_alarm s; command_cell_volts := command_cell_volts s;
     command_minmax_cell_volts := command_minmax_cell_volts s;
     command_minmax_temp := command_minmax_temp s |}.
Definition set_discharge_fet (v : option bool) (s : Daly_Can) : Daly_Can :=
  {| cell_count := cell_count s; temp_sensors := temp_sensors s; history := history s;
     hardware_version := hardware_version s; voltage := voltage s; current := current s;
     soc := soc s; protection := protection s; cells := cells s; temp1 := temp1 s;
     temp2 := temp2 s; charge_fet := charge_fet s; discharge_fet := v;
     capacity_remain := capacity_remain s; capacity := capacity s;
     charger_connected := charger_connected s; load_connected := load_connected s;
     cell_min_voltage := cell_min_voltage s; cell_max_voltage := cell_max_voltage s;
     cell_min_no := cell_min_no s; cell_max_no := cell_max_no s;
     poll_interval := poll_interval s; poll_step := poll_step s; can_bus := can_bus s;
     device_address := device_address s; error_active := error_active s;
     last_error_time := last_error_time s; command_status := command_status s;
     command_soc := command_soc s; command_fet := command_fet s;
     command_alarm := command_alarm s; command_cell_volts := command_cell_volts s;
     command_minmax_cell_volts := command_minmax_cell_volts s;
     command_minmax_temp := command_minmax_temp s |}.
Definition set_capacity_remain (v : option float) (s : Daly_Can) : Daly_Can :=
  {| cell_count := cell_count s; temp_sensors := temp_sensors s; history := history s;
     hardware_version := hardware_version s; voltage := voltage s; current := current s;
     soc := soc s; protection := protection s; cells := cells s; temp1 := temp1 s;
     temp2 := temp2 s; charge_fet := charge_fet s; discharge_fet := discharge_fet s;
     capacity_remain := v; capacity := capacity s;
     charger_connected := charger_connected s; load_connected := load_connected s;
     cell_min_voltage := cell_min_voltage s; cell_max_voltage := cell_max_voltage s;
     cell_min_no := cell_min_no s; cell_max_no := cell_max_no s;
     poll_interval := poll_interval s; poll_step := poll_step s; can_bus := can_bus s;
     device_address := device_address s; error_active := error_active s;
     last_error_time := last_error_time s; command_status := command_status s;
     command_soc := command_soc s; command_fet := command_fet s;
     command_alarm := command_alarm s; command_cell_volts := command_cell_volts s;
     command_minmax_cell_volts := command_minmax_cell_volts s;
     command_minmax_temp := command_minmax_temp s |}.
Definition set_capacity (v : option float) (s : Daly_Can) : Daly_Can :=
  {| cell_count := cell_count s; temp_sensors := temp_sensors s; history := history s;
     hardware_version := hardware_version s; voltage := voltage s; current := current s;
     soc := soc s; protection := protection s; cells := cells s; temp1 := temp1 s;
     temp2 := temp2 s; charge_fet := charge_fet s; discharge_fet := discharge_fet s;
     capacity_remain := capacity_remain s; capacity := v;
     charger_connected := charger_connected s; load_connected := load_connected s;
     cell_min_voltage := cell_min_voltage s; cell_max_voltage := cell_max_voltage s;
     cell_min_no := cell_min_no s; cell_max_no := cell_max_no s;
     poll_interval := poll_interval s; poll_step := poll_step s; can_bus := can_bus s;
     device_address := device_address s; error_active := error_active s;
     last_error_time := last_error_time s; command_status := command_status s;
     command_soc := command_soc s; command_fet := command_fet s;
     command_alarm := command_alarm s; command_cell_volts := command_cell_volts s;
     command_minmax_cell_volts := command_minmax_cell_volts s;
     command_minmax_temp := command_minmax_temp s |}.
Definition set_charger_connected (v : option bool) (s : Daly_Can) : Daly_Can :=
  {| cell_count := cell_count s; temp_sensors := temp_sensors s; history := history s;
     hardware_version := hardware_version s; voltage := voltage s; current := current s;
     soc := soc s; protection := protection s; cells := cells s; temp1 := temp1 s;
     temp2 := temp2 s; charge_fet := charge_fet s; discharge_fet := discharge_fet s;
     capacity_remain := capacity_remain s; capacity := capacity s; charger_connected := v;
     load_connected := load_connected s; cell_min_voltage := cell_min_voltage s;
     cell_max_voltage := cell_max_voltage s; cell_min_no := cell_min_no s;
     cell_max_no := cell_max_no s; poll_interval := poll_interval s;
     poll_step := poll_step s; can_bus := can_bus s; device_address := device_address s;
     error_active := error_active s; last_error_time := last_error_time s;
     command_status := command_status s; command_soc := command_soc s;
     command_fet := command_fet s; command_alarm := command_alarm s;
     command_cell_volts := command_cell_volts s;
     command_minmax_cell_volts := command_minmax_cell_volts s;
     command_minmax_temp := command_minmax_temp s |}.
Definition set_load_connected (v : option bool) (s : Daly_Can) : Daly_Can :=
  {| cell_count := cell_count s; temp_sensors := temp_sensors s; history := history s;
     hardware_version := hardware_version s; voltage := voltage s; current := current s;
     soc := soc s; protection := protection s; cells := cells s; temp1 := temp1 s;
     temp2 := temp2 s; charge_fet := charge_fet s; discharge_fet := discharge_fet s;
     capacity_remain := capacity_remain s; capacity := capacity s;
     charger_connected := charger_connected s; load_connected := v;
     cell_min_voltage := cell_min_voltage s; cell_max_voltage := cell_max_voltage s;
     cell_min_no := cell_min_no s; cell_max_no := cell_max_no s;
     poll_interval := poll_interval s; poll_step := poll_step s; can_bus := can_bus s;
     device_address := device_address s; error_active := error_active s;
     last_error_time := last_error_time s; command_status := command_status s;
     command_soc := command_soc s; command_fet := command_fet s;
     command_alarm := command_alarm s; command_cell_volts := command_cell_volts s;
     command_minmax_cell_volts := command_minmax_cell_volts s;
     command_minmax_temp := command_minmax_temp s |}.
Definition set_cell_min_voltage (v : option float) (s : Daly_Can) : Daly_Can :=
  {| cell_count := cell_count s; temp_sensors := temp_sensors s; history := history s;
     hardware_version := hardware_version s; voltage := voltage s; current := current s;
     soc := soc s; protection := protection s; cells := cells s; temp1 := temp1 s;
     temp2 := temp2 s; charge_fet := charge_fet s; discharge_fet := discharge_fet s;
     capacity_remain := capacity_remain s; capacity := capacity s;
     charger_connected := charger_connected s; load_connected := load_connected s;
     cell_min_voltage := v; cell_max_voltage := cell_max_voltage s;
     cell_min_no := cell_min_no s; cell_max_no := cell_max_no s;
     poll_interval := poll_interval s; poll_step := poll_step s; can_bus := can_bus s;
     device_address := device_address s; error_active := error_active s;
     last_error_time := last_error_time s; command_status := command_status s;
     command_soc := command_soc s; command_fet := command_fet s;
     command_alarm := command_alarm s; command_cell_volts := command_cell_volts s;
     command_minmax_cell_volts := command_minmax_cell_volts s;
     command_minmax_temp := command_minmax_temp s |}.
Definition set_cell_max_voltage (v : option float) (s : Daly_Can) : Daly_Can :=
  {| cell_count := cell_count s; temp_sensors := temp_sensors s; history := history s;
     hardware_version := hardware_version s; voltage := voltage s; current := current s;
     soc := soc s; protection := protection s; cells := cells s; temp1 := temp1 s;
     temp2 := temp2 s; charge_fet := charge_fet s; discharge_fet := discharge_fet s;
     capacity_remain := capacity_remain s; capacity := capacity s;
     charger_connected := charger_connected s; load_connected := load_connected s;
     cell_min_voltage := cell_min_voltage s; cell_max_voltage := v;
     cell_min_no := cell_min_no s; cell_max_no := cell_max_no s;
     poll_interval := poll_interval s; poll_step := poll_step s; can_bus := can_bus s;
     device_address := device_address s; error_active := error_active s;
     last_error_time := last_error_time s; command_status := command_status s;
     command_soc := command_soc s; command_fet := command_fet s;
     command_alarm := command_alarm s; command_cell_volts := command_cell_volts s;
     command_minmax_cell_volts := command_minmax_cell_volts s;
     command_minmax_temp := command_minmax_temp s |}.
Definition set_cell_min_no (v : option Z) (s : Daly_Can) : Daly_Can :=
  {| cell_count := cell_count s; temp_sensors := temp_sensors s; history := history s;
     hardware_version := hardware_version s; voltage := voltage s; current := current s;
     soc := soc s; protection := protection s; cells := cells s; temp1 := temp1 s;
     temp2 := temp2 s; charge_fet := charge_fet s; discharge_fet := discharge_fet s;
     capacity_remain := capacity_remain s; capacity := capacity s;
     charger_connected := charger_connected s; load_connected := load_connected s;
     cell_min_voltage := cell_min_voltage s; cell_max_voltage := cell_max_voltage s;
     cell_min_no := v; cell_max_no := cell_max_no s; poll_interval := poll_interval s;
     poll_step := poll_step s; can_bus := can_bus s; device_address := device_address s;
     error_active := error_active s; last_error_time := last_error_time s;
     command_status := command_status s; command_soc := command_soc s;
     command_fet := command_fet s; command_alarm := command_alarm s;
     command_cell_volts := command_cell_volts s;
     command_minmax_cell_volts := command_minmax_cell_volts s;
     command_minmax_temp := command_minmax_temp s |}.
Definition set_cell_max_no (v : option Z) (s : Daly_Can) : Daly_Can :=
  {| cell_count := cell_count s; temp_sensors := temp_sensors s; history := history s;
     hardware_version := hardware_version s; voltage := voltage s; current := current s;
     soc := soc s; protection := protection s; cells := cells s; temp1 := temp1 s;
     temp2 := temp2 s; charge_fet := charge_fet s; discharge_fet := discharge_fet s;
     capacity_remain := capacity_remain s; capacity := capacity s;
     charger_connected := charger_connected s; load_connected := load_connected s;
     cell_min_voltage := cell_min_voltage s; cell_max_voltage := cell_max_voltage s;
     cell_min_no := cell_min_no s; cell_max_no := v; poll_interval := poll_interval s;
     poll_step := poll_step s; can_bus := can_bus s; device_address := device_address s;
     error_active := error_active s; last_error_time := last_error_time s;
     command_status := command_status s; command_soc := command_soc s;
     command_fet := command_fet s; command_alarm := command_alarm s;
     command_cell_volts := command_cell_volts s;
     command_minmax_cell_volts := command_minmax_cell_volts s;
     command_minmax_temp := command_minmax_temp s |}.
Definition set_poll_step (v : Z) (s : Daly_Can) : Daly_Can :=
  {| cell_count := cell_count s; temp_sensors := temp_sensors s; history := history s;
     hardware_version := hardware_version s; voltage := voltage s; current := current s;
     soc := soc s; protection := protection s; cells := cells s; temp1 := temp1 s;
     temp2 := temp2 s; charge_fet := charge_fet s; discharge_fet := discharge_fet s;
     capacity_remain := capacity_remain s; capacity := capacity s;
     charger_connected := charger_connected s; load_connected := load_connected s;
     cell_min_voltage := cell_min_voltage s; cell_max_voltage := cell_max_voltage s;
     cell_min_no := cell_min_no s; cell_max_no := cell_max_no s;
     poll_interval := poll_interval s; poll_step := v; can_bus := can_bus s;
     device_address := device_address s; error_active := error_active s;
     last_error_time := last_error_time s; command_status := command_status s;
     command_soc := command_soc s; command_fet := command_fet s;
     command_alarm := command_alarm s; command_cell_volts := command_cell_volts s;
     command_minmax_cell_volts := command_minmax_cell_volts s;
     command_minmax_temp := command_minmax_temp s |}.
Definition set_error_active (v : bool) (s : Daly_Can) : Daly_Can :=
  {| cell_count := cell_count s; temp_sensors := temp_sensors s; history := history s;
     hardware_version := hardware_version s; voltage := voltage s; current := current s;
     soc := soc s; protection := protection s; cells := cells s; temp1 := temp1 s;
     temp2 := temp2 s; charge_fet := charge_fet s; discharge_fet := discharge_fet s;
     capacity_remain := capacity_remain s; capacity := capacity s;
     charger_connected := charger_connected s; load_connected := load_connected s;
     cell_min_voltage := cell_min_voltage s; cell_max_voltage := cell_max_voltage s;
     cell_min_no := cell_min_no s; cell_max_no := cell_max_no s;
     poll_interval := poll_interval s; poll_step := poll_step s; can_bus := can_bus s;
     device_address := device_address s; error_active := v;
     last_error_time := last_error_time s; command_status := command_status s;
     command_soc := command_soc s; command_fet := command_fet s;
     command_alarm := command_alarm s; command_cell_volts := command_cell_volts s;
     command_minmax_cell_volts := command_minmax_cell_volts s;
     command_minmax_temp := command_minmax_temp s |}.

(** ** The world around the driver *)

(** The CAN transport.  [sent] logs the arbitration ids of the requests in
    the order [send] was called; [pending] holds the data of the frames the
    bus will deliver, in arrival order.  Iterating a bus blocks until a
    frame arrives, so a read on an empty [pending] never returns. *)
Record CanBus : Type := { sent : list Z; pending : list (list byte) }.

(** The decoders of the driver, to record which of them an invocation
    enters. *)
Inductive Call : Type :=
  | Call_read_status_data
  | Call_read_soc_data
  | Call_read_fed_data
  | Call_read_cell_voltage_range_data
  | Call_read_alarm_data
  | Call_read_cells_volts
  | Call_read_temperature_range_data.

(** [calls] is an observation only: no method reads it. *)
Record World : Type := {
  self : Daly_Can;
  bus : CanBus;
  can_message_cache : list (Z * list byte);  (* self.can_message_cache_callback() *)
  clock : float;                             (* time() *)
  calls : list Call
}.

Definition with_self (s : Daly_Can) (w : World) : World :=
  {| self := s; bus := bus w; can_message_cache := can_message_cache w;
     clock := clock w; calls := calls w |}.

Definition with_bus (b : CanBus) (w : World) : World :=
  {| self := self w; bus := b; can_message_cache := can_message_cache w;
     clock := clock w; calls := calls w |}.

Definition with_calls (cs : list Call) (w : World) : World :=
  {| self := self w; bus := bus w; can_message_cache := can_message_cache w;
     clock := clock w; calls := cs |}.

(** ** Methods as state transformers with exceptions *)

Inductive outcome (A : Type) : Type :=
  | Ret (a : A) (w : World)       (* returned [a] *)
  | Raise (e : exn) (w : World)   (* raised [e] *)
  | Blocked (w : World).          (* waiting for a frame that never comes *)
Arguments Ret {A} a w.
Arguments Raise {A} e w.
Arguments Blocked {A} w.

Definition M (A : Type) : Type := World -> outcome A.

#[global] Instance M_ret : MRet M := fun A a w => Ret a w.

#[global] Instance M_bind : MBind M := fun A B f m w =>
  match m w with
  | Ret a w' => f a w'
  | Raise e w' => Raise e w'
  | Blocked w' => Blocked w'
  end.

Definition raise {A : Type} (e : exn) : M A := fun w => Raise e w.

(** [self.f] *)
Definition attr {A : Type} (f : Daly_Can -> A) : M A :=
  fun w => Ret (f (self w)) w.

(** [self.f = v], through the setter of [f] *)
Definition assign (f : Daly_Can -> Daly_Can) : M unit :=
  fun w => Ret tt (with_self (f (self w)) w).

Definition enter (c : Call) : M unit :=
  fun w => Ret tt (with_calls (calls w ++ [c]) w).

(** [time()] *)
Definition time : M float := fun w => Ret (clock w) w.

Definition can_message_cache_callback : M (list (Z * list byte)) :=
  fun w => Ret (can_message_cache w) w.

(** The state an outcome ends in. *)
Definition final {A : Type} (o : outcome A) : World :=
  match o with
  | Ret _ w | Raise _ w | Blocked w => w
  end.

(** The value an outcome returned, and the exception it raised. *)
Definition returned {A : Type} (o : outcome A) : option A :=
  match o with
  | Ret a _ => Some a
  | _ => None
  end.

Definition raised {A : Type} (o : outcome A) : option exn :=
  match o with
  | Raise e _ => Some e
  | _ => None
  end.

(** [result and m]: [m] runs only when [result] is true. *)
Definition and_then (result : bool) (m : M bool) : M bool :=
  if result then m else mret false.

(** Truth value of an integer in a condition. *)
Definition truthy (z : Z) : bool := negb (z =? 0).

(** [x is False] for the bytearray [read_bus_data_daly] returns: a
    bytearray, empty or not, is never the object [False]. *)
Definition is_False (data : list byte) : bool := false.

(** ** Class constants *)

Definition COMMAND_BASE : string := "COMMAND_BASE".
Definition COMMAND_SOC : string := "COMMAND_SOC".
Definition COMMAND_MINMAX_CELL_VOLTS : string := "COMMAND_MINMAX_CELL_VOLTS".
Definition COMMAND_MINMAX_TEMP : string := "COMMAND_MINMAX_TEMP".
Definition COMMAND_FET : string := "COMMAND_FET".
Definition COMMAND_STATUS : string := "COMMAND_STATUS".
Definition COMMAND_CELL_VOLTS : string := "COMMAND_CELL_VOLTS".
Definition COMMAND_TEMP : string := "COMMAND_TEMP".
Definition COMMAND_CELL_BALANCE : string := "COMMAND_CELL_BALANCE".
Definition COMMAND_ALARM : string := "COMMAND_ALARM".
Definition RESPONSE_BASE : string := "RESPONSE_BASE".
Definition RESPONSE_SOC : string := "RESPONSE_SOC".
Definition RESPONSE_MINMAX_CELL_VOLTS : string := "RESPONSE_MINMAX_CELL_VOLTS".
Definition RESPONSE_MINMAX_TEMP : string := "RESPONSE_MINMAX_TEMP".
Definition RESPONSE_FET : string := "RESPONSE_FET".
Definition RESPONSE_STATUS : string := "RESPONSE_STATUS".
Definition RESPONSE_CELL_VOLTS : string := "RESPONSE_CELL_VOLTS".
Definition RESPONSE_TEMP : string := "RESPONSE_TEMP".
Definition RESPONSE_CELL_BALANCE : string := "RESPONSE_CELL_BALANCE".
Definition RESPONSE_ALARM : string := "RESPONSE_ALARM".

(** The dictionary literal, in source order. *)
Definition CAN_FRAMES : list (string * list Z) :=
  [ (COMMAND_BASE, [0x18940140]);
    (COMMAND_SOC, [0x18900140]);
    (COMMAND_MINMAX_CELL_VOLTS, [0x18910140]);
    (COMMAND_MINMAX_TEMP, [0x18920140]);
    (COMMAND_FET, [0x18930140]);
    (COMMAND_STATUS, [0x18940140]);
    (COMMAND_CELL_VOLTS, [0x18950140]);
    (COMMAND_TEMP, [0x18960140]);
    (COMMAND_CELL_BALANCE, [0x18970140]);
    (COMMAND_ALARM, [0x18980140]);
    (RESPONSE_BASE, [0x18944001]);
    (RESPONSE_SOC, [0x18904001]);
    (RESPONSE_MINMAX_CELL_VOLTS, [0x18914001]);
    (RESPONSE_MINMAX_TEMP, [0x18924001]);
    (RESPONSE_FET, [0x18934001]);
    (RESPONSE_STATUS, [0x18944001]);
    (RESPONSE_CELL_VOLTS, [0x18954001]);
    (RESPONSE_TEMP, [0x18964001]);
    (RESPONSE_CELL_BALANCE, [0x18974001]);
    (RESPONSE_ALARM, [0x18984001]) ].

(** [d[key]] *)
Fixpoint getitem (d : list (string * list Z)) (key : string) : result (list Z) :=
  match d with
  | [] => Err KeyError
  | (k, v) :: rest => if String.eqb k key then Ok v else getitem rest key
  end.

Definition CURRENT_ZERO_CONSTANT : Z := 30000.
Definition TEMP_ZERO_CONSTANT : Z := 40.

(** ** [read_bus_data_daly] *)

(** The [for msg in can_bus] loop: append the data of each frame and stop
    at the [expectedMessageCount]-th; [None] when the bus runs dry first. *)
Fixpoint collect (expectedMessageCount count : nat) (response : list byte)
    (frames : list (list byte)) : option (list byte * list (list byte)) :=
  match frames with
  | [] => None
  | msg :: rest =>
      let response := response ++ msg in
      let count := S count in
      if (count =? expectedMessageCount)%nat then Some (response, rest)
      else collect expectedMessageCount count response rest
  end.

Definition read_bus_data_daly (can_bus : option BusRef) (command : Z)
    (expectedMessageCount : nat) : M (list byte) := fun w =>
  match can_bus with
  | None => Raise AttributeError w
  | Some TheBus =>
      let sent' := sent (bus w) ++ [command] in
      match collect expectedMessageCount 0 [] (pending (bus w)) with
      | Some (response, rest) =>
          Ret response (with_bus {| sent := sent'; pending := rest |} w)
      | None => Blocked (with_bus {| sent := sent'; pending := [] |} w)
      end
  end.

(** ** The methods of [Daly_Can] *)

Section Methods.

Variable utils : Utils.

Definition get_settings : M bool :=
  assign (set_capacity (Some (BATTERY_CAPACITY utils)));;
  mret true.

Definition read_status_data (can_bus : option BusRef) : M bool :=
  enter Call_read_status_data;;
  command ← attr command_status;
  status_data ← read_bus_data_daly can_bus command 1;
  if is_False status_data then mret false
  else
    match unpack_from ">bb??bhx" status_data 0 with
    | Err e => raise e
    | Ok [VInt cell_count'; VInt temp_sensors'; VBool charger_connected';
          VBool load_connected'; VInt state; VInt charge_cycles'] =>
        assign (set_cell_count (Some cell_count'));;
        assign (set_temp_sensors (Some temp_sensors'));;
        assign (set_charger_connected (Some charger_connected'));;
        assign (set_load_connected (Some load_connected'));;
        assign (set_history {| History.charge_cycles := Some charge_cycles' |});;
        if cell_count' =? 0 then mret false
        else
          assign (set_hardware_version
                    (Some ("DalyBMS " ++ str cell_count' ++ "S")%string));;
          mret true
    | Ok _ => raise ValueError
    end.

(** The [while triesValid > 0] loop of [read_soc_data]. *)
Fixpoint read_soc_tries (triesValid : nat) (ser : option BusRef)
    (crntMinValid crntMaxValid : float) : M bool :=
  match triesValid with
  | O => mret false
  | S triesValid' =>
      command ← attr command_soc;
      soc_data ← read_bus_data_daly ser command 1;
      if is_False soc_data then mret false
      else
        match unpack_from ">hhhh" soc_data 0 with
        | Err e => raise e
        | Ok [VInt voltage'; VInt tmp; VInt current'; VInt soc'] =>
            let current' :=
              (truediv (current' - CURRENT_ZERO_CONSTANT) (-10)
               * float_of_int (INVERT_CURRENT_MEASUREMENT utils))%float in
            if (crntMinValid <? current')%float && (current' <? crntMaxValid)%float
            then
              assign (set_voltage (Some (truediv voltage' 10)));;
              assign (set_current (Some current'));;
              assign (set_soc (Some (truediv soc' 10)));;
              mret true
            else read_soc_tries triesValid' ser crntMinValid crntMaxValid
        | Ok _ => raise ValueError
        end
  end.

Definition read_soc_data (ser : option BusRef) : M bool :=
  enter Call_read_soc_data;;
  let crntMinValid := (- (MAX_BATTERY_DISCHARGE_CURRENT utils * 2.1))%float in
  let crntMaxValid := (MAX_BATTERY_CHARGE_CURRENT utils * 1.3)%float in
  let triesValid := 2%nat in
  read_soc_tries triesValid ser crntMinValid crntMaxValid.

(** One [if a: 2 / elif b: 1 / else: 0] block of [read_alarm_data]. *)
Definition severity (alarm prealarm : bool) : option Z :=
  if alarm then Some 2 else if prealarm then Some 1 else Some 0.

Definition assign_protection (f : Protection.t -> Protection.t) : M unit :=
  assign (fun s => set_protection (f (protection s)) s).

Definition read_alarm_data (ser : option BusRef) : M bool :=
  enter Call_read_alarm_data;;
  command ← attr command_alarm;
  alarm_data ← read_bus_data_daly ser command 1;
  if is_False alarm_data then mret false
  else
    match unpack_from ">bbbbbbbb" alarm_data 0 with
    | Err e => raise e
    | Ok [VInt al_volt; VInt al_temp; VInt al_crnt_soc; VInt al_diff;
          VInt al_mos; VInt al_misc1; VInt al_misc2; VInt al_fault] =>
        assign_protection (Protection.set_high_voltage
          (severity (truthy (Z.land al_volt 48)) (truthy (Z.land al_volt 15))));;
        assign_protection (Protection.set_low_voltage
          (severity (truthy (Z.land al_volt 128)) (truthy (Z.land al_volt 64))));;
        assign_protection (Protection.set_high_charge_temp
          (severity (truthy (Z.land al_temp 2)) (truthy (Z.land al_temp 1))));;
        assign_protection (Protection.set_low_charge_temp
          (severity (truthy (Z.land al_temp 8)) (truthy (Z.land al_temp 4))));;
        assign_protection (Protection.set_high_temperature
          (severity (truthy (Z.land al_temp 32)) (truthy (Z.land al_temp 16))));;
        assign_protection (Protection.set_low_temperature
          (severity (truthy (Z.land al_temp 128)) (truthy (Z.land al_temp 64))));;
        assign_protection (Protection.set_high_charge_current
          (severity
             (truthy (Z.land al_crnt_soc 2) || truthy (Z.land al_crnt_soc 8))
             (truthy (Z.land al_crnt_soc 1) || truthy (Z.land al_crnt_soc 4))));;
        assign_protection (Protection.set_low_soc
          (severity (truthy (Z.land al_crnt_soc 128))
                    (truthy (Z.land al_crnt_soc 64))));;
        mret true
    | Ok _ => raise ValueError
    end.

(** [lst[i]] resolves a negative [i] from the end of the list. *)
Definition list_index (len : nat) (i : Z) : option nat :=
  if 0 <=? i then
    if i <? Z.of_nat len then Some (Z.to_nat i) else None
  else if 0 <=? Z.of_nat len + i then Some (Z.to_nat (Z.of_nat len + i))
  else None.

(** [self.cells[cellnum].voltage = v] *)
Definition set_cell_voltage (cellnum : Z) (v : option float) : M unit :=
  cs ← attr cells;
  match list_index (length cs) cellnum with
  | None => raise IndexError
  | Some n => assign (set_cells (alter (Cell.set_voltage v) n cs))
  end.

(** The [for idx in range(3)] loop over the three voltages of one frame,
    each paired with its [idx]. *)
Fixpoint store_frame (frame : Z) (lowMin : float) (frameCell : list (Z * Z))
    : M unit :=
  match frameCell with
  | [] => mret tt
  | (idx, raw) :: rest =>
      let cellnum := (frame - 1) * 3 + idx in
      cell_count' ← attr cell_count;
      match cell_count' with
      | None => raise TypeError
      | Some n =>
          if cellnum >=? n then mret tt
          else
            let cellVoltage := truediv raw 1000 in
            set_cell_voltage cellnum
              (if (cellVoltage <? lowMin)%float then None else Some cellVoltage);;
            store_frame frame lowMin rest
      end
  end.

(** The [while bufIdx < len(cells_volts_data)] loop.  [bufIdx] grows by 8
    each turn, so [fuel = len(cells_volts_data)] turns are never used up. *)
Fixpoint read_frames (fuel : nat) (cells_volts_data : list byte)
    (lowMin : float) (bufIdx : nat) : M unit :=
  if (bufIdx <? length cells_volts_data)%nat then
    match fuel with
    | O => mret tt
    | S fuel' =>
        match unpack_from ">Bhhh" cells_volts_data bufIdx with
        | Err e => raise e
        | Ok [VInt frame; VInt c0; VInt c1; VInt c2] =>
            store_frame frame lowMin [(0, c0); (1, c1); (2, c2)];;
            read_frames fuel' cells_volts_data lowMin (bufIdx + 8)
        | Ok _ => raise ValueError
        end
    end
  else mret tt.

Definition read_cells_volts (can_bus : option BusRef) : M bool :=
  enter Call_read_cells_volts;;
  cell_count' ← attr cell_count;
  match cell_count' with
  | None => mret true
  | Some n =>
      command ← attr command_cell_volts;
      cells_volts_data ← read_bus_data_daly can_bus command 6;
      if is_False cells_volts_data then mret false
      else
        let lowMin := (MIN_CELL_VOLTAGE utils / float_of_int 2)%float in
        cs ← attr cells;
        (if Z.of_nat (length cs) =? n then mret tt
         else assign (set_cells (replicate (Z.to_nat n) (Cell.new true))));;
        read_frames (length cells_volts_data) cells_volts_data lowMin 0;;
        mret true
  end.

Definition read_cell_voltage_range_data (ser : option BusRef) : M bool :=
  enter Call_read_cell_voltage_range_data;;
  command ← attr command_minmax_cell_volts;
  minmax_data ← read_bus_data_daly ser command 1;
  if is_False minmax_data then mret false
  else
    match unpack_from ">hbhb" minmax_data 0 with
    | Err e => raise e
    | Ok [VInt cell_max_voltage'; VInt cell_max_no';
          VInt cell_min_voltage'; VInt cell_min_no'] =>
        assign (set_cell_max_no (Some cell_max_no'));;
        assign (set_cell_min_no (Some cell_min_no'));;
        assign (set_cell_min_no (Some (cell_min_no' - 1)));;
        assign (set_cell_max_no (Some (cell_max_no' - 1)));;
        assign (set_cell_max_voltage (Some (truediv cell_max_voltage' 1000)));;
        assign (set_cell_min_voltage (Some (truediv cell_min_voltage' 1000)));;
        mret true
    | Ok _ => raise ValueError
    end.

Definition read_temperature_range_data (ser : option BusRef) : M bool :=
  enter Call_read_temperature_range_data;;
  command ← attr command_minmax_temp;
  minmax_data ← read_bus_data_daly ser command 1;
  if is_False minmax_data then mret false
  else
    match unpack_from ">bbbb" minmax_data 0 with
    | Err e => raise e
    | Ok [VInt max_temp; VInt max_no; VInt min_temp; VInt min_no] =>
        assign (set_temp1 (Some (min_temp - TEMP_ZERO_CONSTANT)));;
        assign (set_temp2 (Some (max_temp - TEMP_ZERO_CONSTANT)));;
        mret true
    | Ok _ => raise ValueError
    end.

Definition read_fed_data (ser : option BusRef) : M bool :=
  enter Call_read_fed_data;;
  command ← attr command_fet;
  fed_data ← read_bus_data_daly ser command 1;
  if is_False fed_data then mret false
  else
    match unpack_from ">b??BL" fed_data 0 with
    | Err e => raise e
    | Ok [VInt status; VBool charge_fet'; VBool discharge_fet';
          VInt bms_cycles; VInt capacity_remain'] =>
        assign (set_charge_fet (Some charge_fet'));;
        assign (set_discharge_fet (Some discharge_fet'));;
        assign (set_capacity_remain (Some (truediv capacity_remain' 1000)));;
        mret true
    | Ok _ => raise ValueError
    end.

Definition refresh_data : M bool :=
  can_bus' ← attr can_bus;
  result ← read_soc_data can_bus';
  can_bus' ← attr can_bus;
  result ← and_then result (read_fed_data can_bus');
  poll_step' ← attr poll_step;
  result ←
    (if poll_step' =? 0 then
       can_bus' ← attr can_bus;
       and_then result (read_cell_voltage_range_data can_bus')
     else if poll_step' =? 1 then
       can_bus' ← attr can_bus;
       and_then result (read_alarm_data can_bus')
     else if poll_step' =? 2 then
       can_bus' ← attr can_bus;
       and_then result (read_cells_volts can_bus')
     else if poll_step' =? 3 then
       can_bus' ← attr can_bus;
       result ← and_then result (read_temperature_range_data can_bus');
       assign (set_poll_step (-1));;
       mret result
     else mret result);
  poll_step' ← attr poll_step;
  assign (set_poll_step (poll_step' + 1));;
  mret result.

(** The body of the [for frame_id, data in ...items()] loop of
    [read_daly_can], over the items still to visit. *)
Fixpoint read_cache_items (items : list (Z * list byte)) (data_check : Z)
    : M Z :=
  match items with
  | [] => mret data_check
  | (frame_id, data) :: rest =>
      device_address' ← attr device_address;
      let normalized_arbitration_id := frame_id + device_address' in
      match getitem CAN_FRAMES COMMAND_STATUS with
      | Err e => raise e
      | Ok ids =>
          if existsb (Z.eqb normalized_arbitration_id) ids then
            match unpack_from ">BB??BHX" data 0 with
            | Err e => raise e
            | Ok [VInt cell_count'; VInt temp_sensors'; VBool charger_connected';
                  VBool load_connected'; VInt state; VInt charge_cycles'] =>
                assign (set_cell_count (Some cell_count'));;
                assign (set_temp_sensors (Some temp_sensors'));;
                assign (set_charger_connected (Some charger_connected'));;
                assign (set_load_connected (Some load_connected'));;
                assign (set_history
                          {| History.charge_cycles := Some charge_cycles' |});;
                let data_check :=
                  if cell_count' =? 0 then data_check else data_check + 1 in
                assign (set_hardware_version
                          (Some ("Daly CAN " ++ str cell_count' ++ "S")%string));;
                read_cache_items rest data_check
            | Ok _ => raise ValueError
            end
          else read_cache_items rest data_check
      end
  end.

Definition read_daly_can : M bool :=
  now ← time;
  last_error_time' ← attr last_error_time;
  error_active' ← attr error_active;
  (if (120.0 <? now - last_error_time')%float && error_active'
   then assign (set_error_active false)
   else mret tt);;
  items ← can_message_cache_callback;
  data_check ← read_cache_items items 0;
  if data_check =? 0 then mret false else mret true.

(** [try: ... except Exception: result = False] *)
Definition try_except (body : M bool) : M bool := fun w =>
  match body w with
  | Raise _ w' => Ret false w'
  | o => o
  end.

Definition test_connection : M bool :=
  try_except (
    result ← get_settings;
    items ← can_message_cache_callback;
    let result := match items with [] => false | _ => result end in
    and_then result read_daly_can).

End Methods.

(** ** A driver object and a world to run the methods on *)

Definition utils0 : Utils :=
  {| BATTERY_CAPACITY := 50; INVERT_CURRENT_MEASUREMENT := 1;
     MAX_BATTERY_CHARGE_CURRENT := 50; MAX_BATTERY_DISCHARGE_CURRENT := 60;
     MIN_CELL_VOLTAGE := 2.9 |}.

(** The object as [__init__] leaves it (inherited attributes unset, device
    address 0), with the request ids of [CAN_FRAMES] and the given bus
    reference. *)
Definition new_Daly_Can (can_bus' : option BusRef) : Daly_Can :=
  {| cell_count := None; temp_sensors := None;
     history := {| History.charge_cycles := None |};
     hardware_version := None; voltage := None; current := None; soc := None;
     protection :=
       {| Protection.high_voltage := None; Protection.low_voltage := None;
          Protection.high_charge_temp := None; Protection.low_charge_temp := None;
          Protection.high_temperature := None; Protection.low_temperature := None;
          Protection.high_charge_current := None; Protection.low_soc := None |};
     cells := []; temp1 := None; temp2 := None;
     charge_fet := None; discharge_fet := None;
     capacity_remain := None; capacity := None;
     charger_connected := None; load_connected := None;
     cell_min_voltage := None; cell_max_voltage := None;
     cell_min_no := None; cell_max_no := None;
     poll_interval := 1000; poll_step := 0; can_bus := can_bus';
     device_address := 0; error_active := false; last_error_time := 0;
     command_status := 0x18940140; command_soc := 0x18900140;
     command_fet := 0x18930140; command_alarm := 0x18980140;
     command_cell_volts := 0x18950140;
     command_minmax_cell_volts := 0x18910140;
     command_minmax_temp := 0x18920140 |}.

(** The same object once a bus is attached. *)
Definition daly0 : Daly_Can := new_Daly_Can (Some TheBus).

Definition world_of (s : Daly_Can) (frames : list (list byte)) : World :=
  {| self := s; bus := {| sent := []; pending := frames |};
     can_message_cache := []; clock := 0; calls := [] |}.

(** 53.2 V, 0 A, 100 % *)
Definition soc_frame_ok : list byte := [x02; x14; x00; x00; x75; x30; x03; xe8].
(** 53.2 V, raw current 0, that is 3000 A *)
Definition soc_frame_implausible : list byte :=
  [x02; x14; x00; x00; x00; x00; x03; xe8].
Definition fet_frame : list byte := [x01; x01; x01; x05; x00; x00; xc3; x50].
Definition range_frame : list byte := [x0c; xe4; x02; x0c; x80; x01; x00; x00].
Definition alarm_frame : list byte := [x30; x02; x40; x00; x00; x00; x00; x00].
Definition temp_frame : list byte := [x3c; x01; x3a; x02; x00; x00; x00; x00].

(** * What the properties are stated with *)

(** ** The plausibility test of the SOC decoder *)

(** The physical current [read_soc_data] computes from the raw field, and
    the bounds it compares against. *)
Definition physical_current (utils : Utils) (raw_current : Z) : float :=
  (truediv (raw_current - CURRENT_ZERO_CONSTANT) (-10)
   * float_of_int (INVERT_CURRENT_MEASUREMENT utils))%float.

Definition crntMinValid (utils : Utils) : float :=
  (- (MAX_BATTERY_DISCHARGE_CURRENT utils * 2.1))%float.

Definition crntMaxValid (utils : Utils) : float :=
  (MAX_BATTERY_CHARGE_CURRENT utils * 1.3)%float.

Definition plausible (utils : Utils) (c : float) : bool :=
  (crntMinValid utils <? c)%float && (c <? crntMaxValid utils)%float.


Definition soc_frame_top_bit_voltage : list byte :=
  [xff; xff; x00; x00; x75; x30; xff; xff].

(** ** The severities of the alarm bytes *)

(** Bit [n] of a wire byte, counted from the least significant bit. *)
Definition bit (b : byte) (n : Z) : bool := Z.testbit (byte_val b) n.

(** Alarm bits are looked at before pre-alarm bits. *)
Definition level (alarm prealarm : bool) : option Z :=
  Some (if alarm then 2 else if prealarm then 1 else 0).

(** The severities the three mapped alarm bytes stand for. *)
Definition alarm_levels (al_volt al_temp al_crnt_soc : byte) : Protection.t :=
  {| Protection.high_voltage :=
       level (bit al_volt 4 || bit al_volt 5)
             (bit al_volt 0 || bit al_volt 1 || bit al_volt 2 || bit al_volt 3);
     Protection.low_voltage := level (bit al_volt 7) (bit al_volt 6);
     Protection.high_charge_temp := level (bit al_temp 1) (bit al_temp 0);
     Protection.low_charge_temp := level (bit al_temp 3) (bit al_temp 2);
     Protection.high_temperature := level (bit al_temp 5) (bit al_temp 4);
     Protection.low_temperature := level (bit al_temp 7) (bit al_temp 6);
     Protection.high_charge_current :=
       level (bit al_crnt_soc 1 || bit al_crnt_soc 3)
             (bit al_crnt_soc 0 || bit al_crnt_soc 2);
     Protection.low_soc := level (bit al_crnt_soc 7) (bit al_crnt_soc 6) |}.

(** ** The decoders and their layouts *)

(** The decoder each [Call] names, and the number of bytes its format
    needs. *)
Definition decoder (utils : Utils) (c : Call) : option BusRef -> M bool :=
  match c with
  | Call_read_status_data => read_status_data
  | Call_read_soc_data => read_soc_data utils
  | Call_read_fed_data => read_fed_data
  | Call_read_cell_voltage_range_data => read_cell_voltage_range_data
  | Call_read_alarm_data => read_alarm_data
  | Call_read_cells_volts => read_cells_volts utils
  | Call_read_temperature_range_data => read_temperature_range_data
  end.

Definition layout_size (c : Call) : nat :=
  match c with
  | Call_read_status_data => 8      (* >bb??bhx *)
  | Call_read_soc_data => 8         (* >hhhh *)
  | Call_read_fed_data => 8         (* >b??BL *)
  | Call_read_cell_voltage_range_data => 6   (* >hbhb *)
  | Call_read_alarm_data => 8       (* >bbbbbbbb *)
  | Call_read_cells_volts => 7      (* >Bhhh, per frame *)
  | Call_read_temperature_range_data => 4    (* >bbbb *)
  end.

(** ** Observations of the world *)

(** [m] never changes the observation [f] of the world, however it ends. *)
Definition preserves {X A : Type} (f : World -> X) (m : M A) : Prop :=
  forall w, f (final (m w)) = f w.

(** The observations the decoders leave alone: the record of calls (past
    their own entry), and the attributes that steer the polling cycle and
    the error latch. *)
Definition control (w : World) : list Call * (Z * bool * float * option BusRef) :=
  (calls w,
   (poll_step (self w), error_active (self w), last_error_time (self w),
    can_bus (self w))).

(** ** The reads of a polling cycle *)

(** The decoder [refresh_data] runs for a value of [poll_step]. *)
Definition optional_call (step : Z) : option Call :=
  if step =? 0 then Some Call_read_cell_voltage_range_data
  else if step =? 1 then Some Call_read_alarm_data
  else if step =? 2 then Some Call_read_cells_volts
  else if step =? 3 then Some Call_read_temperature_range_data
  else None.

Definition optional_read (utils : Utils) (step : Z) (result : bool) : M bool :=
  match optional_call step with
  | Some c => can_bus' ← attr can_bus; and_then result (decoder utils c can_bus')
  | None => mret result
  end.

(** The decoders one invocation of [refresh_data] enters, in order. *)
Definition reads_of (utils : Utils) (w : World) : list Call :=
  drop (length (calls w)) (calls (final (refresh_data utils w))).

(** ** Four cycles in a row *)

(** Four cycles on a pack of four cells: each cycle is answered by a SOC
    frame, a FET frame and the frames of its own step. *)
Definition cell_frames : list (list byte) :=
  [ [x01; x0c; xe4; x0c; xe4; x0c; xe4; x00];
    [x02; x0c; xe4; x00; x00; x00; x00; x00];
    [x03; x00; x00; x00; x00; x00; x00; x00];
    [x04; x00; x00; x00; x00; x00; x00; x00];
    [x05; x00; x00; x00; x00; x00; x00; x00];
    [x06; x00; x00; x00; x00; x00; x00; x00] ].

Definition cycle_world0 : World :=
  world_of (set_cell_count (Some 4) daly0)
    ([soc_frame_ok; fet_frame; range_frame]
     ++ [soc_frame_ok; fet_frame; alarm_frame]
     ++ [soc_frame_ok; fet_frame] ++ cell_frames
     ++ [soc_frame_ok; fet_frame; temp_frame]).

Definition cycle_world1 : World := final (refresh_data utils0 cycle_world0).
Definition cycle_world2 : World := final (refresh_data utils0 cycle_world1).
Definition cycle_world3 : World := final (refresh_data utils0 cycle_world2).
Definition cycle_world4 : World := final (refresh_data utils0 cycle_world3).

(** ** A latched error *)

(** A world with the latch set at time 0 and the clock at [now]. *)
Definition latched_world (now : float) (frames : list (list byte)) : World :=
  {| self := set_error_active true daly0;
     bus := {| sent := []; pending := frames |};
     can_message_cache := []; clock := now; calls := [] |}.

(** ** Status frames *)

(** A status frame of a 16-cell pack with two sensors, load connected,
    100 cycles; and one whose count bytes have the top bit set. *)
Definition status_frame : list byte := [x10; x02; x00; x01; x00; x00; x64; x00].
Definition status_frame_high : list byte := [x80; x02; x00; x01; x00; x80; x00; x00].

Definition cache_world (data : list byte) : World :=
  {| self := daly0; bus := {| sent := []; pending := [] |};
     can_message_cache := [(0x18940140, data)]; clock := 0; calls := [] |}.

(** ** Cell-voltage frames and what they write *)

(** [MIN_CELL_VOLTAGE / 2], and what is stored for a raw reading in mV. *)
Definition lowMin (utils : Utils) : float :=
  (MIN_CELL_VOLTAGE utils / float_of_int 2)%float.

Definition reading (utils : Utils) (mv : Z) : option float :=
  let cellVoltage := truediv mv 1000 in
  if (cellVoltage <? lowMin utils)%float then None else Some cellVoltage.

(** The cell list after the [for idx] loop of one frame, for a list of
    [n] cells and a frame index of at least 1. *)
Fixpoint write_frame (utils : Utils) (n frame : Z) (frameCell : list (Z * Z))
    (cs : list Cell.t) : list Cell.t :=
  match frameCell with
  | [] => cs
  | (idx, raw) :: rest =>
      let cellnum := (frame - 1) * 3 + idx in
      if cellnum >=? n then cs
      else write_frame utils n frame rest
             (alter (Cell.set_voltage (reading utils raw)) (Z.to_nat cellnum) cs)
  end.

(** A cell-voltage frame on the wire: the frame index, three big-endian
    readings in mV, one pad byte. *)
Record CellFrame : Type := {
  cf_index : byte;
  cf_hi0 : byte; cf_lo0 : byte;
  cf_hi1 : byte; cf_lo1 : byte;
  cf_hi2 : byte; cf_lo2 : byte;
  cf_pad : byte
}.

Definition wire (fr : CellFrame) : list byte :=
  [cf_index fr; cf_hi0 fr; cf_lo0 fr; cf_hi1 fr; cf_lo1 fr; cf_hi2 fr; cf_lo2 fr;
   cf_pad fr].

Definition frame_index (fr : CellFrame) : Z := uint_be [cf_index fr].

(** The three readings of a frame, each with its offset. *)
Definition frame_cells (fr : CellFrame) : list (Z * Z) :=
  [ (0, int_be [cf_hi0 fr; cf_lo0 fr]);
    (1, int_be [cf_hi1 fr; cf_lo1 fr]);
    (2, int_be [cf_hi2 fr; cf_lo2 fr]) ].

(** The cell list after the [while] loop over a buffer of whole frames. *)
Definition write_frames (utils : Utils) (n : Z) (frames : list CellFrame)
    (cs : list Cell.t) : list Cell.t :=
  fold_left (fun cs fr => write_frame utils n (frame_index fr) (frame_cells fr) cs)
    frames cs.

(** The reading a frame holds for cell [i], if it holds one: frame [f]
    covers the cells [(f - 1) * 3 + offset], [offset] in 0, 1, 2. *)
Definition covers (fr : CellFrame) (i : Z) : option Z :=
  let offset := i - (frame_index fr - 1) * 3 in
  if offset =? 0 then Some (int_be [cf_hi0 fr; cf_lo0 fr])
  else if offset =? 1 then Some (int_be [cf_hi1 fr; cf_lo1 fr])
  else if offset =? 2 then Some (int_be [cf_hi2 fr; cf_lo2 fr])
  else None.

(** The reading of the last frame that covers cell [i]. *)
Definition last_covering (frames : list CellFrame) (i : Z) : option Z :=
  fold_left (fun acc fr => match covers fr i with Some mv => Some mv | None => acc end)
    frames None.

Definition update_cell (utils : Utils) (i : Z) (c : Cell.t) (fr : CellFrame) : Cell.t :=
  match covers fr i with
  | Some mv => Cell.set_voltage (reading utils mv) c
  | None => c
  end.

(** Six frames with the indices 1, 3, 4, 5, 6 and 7: the first holds 3.3 V
    for the cells 0 to 2, and no frame covers the cells 3 to 5. *)
Definition cell_frames_gap : list CellFrame :=
  [ {| cf_index := x01; cf_hi0 := x0c; cf_lo0 := xe4; cf_hi1 := x0c; cf_lo1 := xe4;
       cf_hi2 := x0c; cf_lo2 := xe4; cf_pad := x00 |};
    {| cf_index := x03; cf_hi0 := x00; cf_lo0 := x00; cf_hi1 := x00; cf_lo1 := x00;
       cf_hi2 := x00; cf_lo2 := x00; cf_pad := x00 |};
    {| cf_index := x04; cf_hi0 := x00; cf_lo0 := x00; cf_hi1 := x00; cf_lo1 := x00;
       cf_hi2 := x00; cf_lo2 := x00; cf_pad := x00 |};
    {| cf_index := x05; cf_hi0 := x00; cf_lo0 := x00; cf_hi1 := x00; cf_lo1 := x00;
       cf_hi2 := x00; cf_lo2 := x00; cf_pad := x00 |};
    {| cf_index := x06; cf_hi0 := x00; cf_lo0 := x00; cf_hi1 := x00; cf_lo1 := x00;
       cf_hi2 := x00; cf_lo2 := x00; cf_pad := x00 |};
    {| cf_index := x07; cf_hi0 := x00; cf_lo0 := x00; cf_hi1 := x00; cf_lo1 := x00;
       cf_hi2 := x00; cf_lo2 := x00; cf_pad := x00 |} ].

(** Four cells at 3.3 V. *)
Definition four_cells : list Cell.t :=
  replicate 4 {| Cell.voltage := Some 3.3%float; Cell.balance := Some false |}.

(** ** Polling cycles in a row *)

(** [poll_step] after a cycle that returned. *)
Definition next_step (step : Z) : Z := if step =? 3 then 0 else step + 1.

(** [n] invocations of [refresh_data] one after the other, as long as each
    of them returns. *)
Fixpoint cycles (utils : Utils) (n : nat) (w : World) : option World :=
  match n with
  | O => Some w
  | S n' =>
      match refresh_data utils w with
      | Ret _ w' => cycles utils n' w'
      | _ => None
      end
  end.

(** ** The requests of a polling cycle *)





(** ** The cache read *)

(** Whether [read_daly_can] takes a cached frame id for the status frame:
    the id plus the device address is the one id listed under
    [COMMAND_STATUS]. *)
Definition is_status_id (s : Daly_Can) (frame_id : Z) : bool :=
  frame_id + device_address s =? 0x18940140.

Definition holds_status_frame (w : World) : bool :=
  existsb (fun item => is_status_id (self w) (fst item)) (can_message_cache w).

(** The world after the test of the error latch that opens
    [read_daly_can]. *)
Definition after_latch (w : World) : World :=
  if (120.0 <? clock w - last_error_time (self w))%float && error_active (self w)
  then with_self (set_error_active false (self w)) w
  else w.

(** ** Odd cell-voltage frames *)

(** A frame with the index 0 holding 3.300 V, 3.301 V and 3.302 V. *)
Definition cell_frame_zero : CellFrame :=
  {| cf_index := x00; cf_hi0 := x0c; cf_lo0 := xe4; cf_hi1 := x0c; cf_lo1 := xe5;
     cf_hi2 := x0c; cf_lo2 := xe6; cf_pad := x00 |}.

(** The length of the cell list and the cell count. *)
Definition cells_shape (w : World) : nat * option Z :=
  (length (cells (self w)), cell_count (self w)).

(** * Properties *)

(** ** Running a method step by step *)

Lemma bind_Ret {A B : Type} (m : M A) (k : A -> M B) (w w1 : World) (a : A) :
  m w = Ret a w1 -> (m ≫= k) w = k a w1.
Proof. intros E. unfold mbind, M_bind. now rewrite E. Qed.

Lemma bind_Raise {A B : Type} (m : M A) (k : A -> M B) (w w1 : World) (e : exn) :
  m w = Raise e w1 -> (m ≫= k) w = Raise e w1.
Proof. intros E. unfold mbind, M_bind. now rewrite E. Qed.

Lemma bind_Blocked {A B : Type} (m : M A) (k : A -> M B) (w w1 : World) :
  m w = Blocked w1 -> (m ≫= k) w = Blocked w1.
Proof. intros E. unfold mbind, M_bind. now rewrite E. Qed.

(** One frame, one request: the payload of the next frame comes back. *)
Lemma read_bus_data_daly_one (command : Z) (payload : list byte)
    (rest : list (list byte)) (w : World) :
  pending (bus w) = payload :: rest ->
  read_bus_data_daly (Some TheBus) command 1 w =
    Ret payload
      (with_bus {| sent := sent (bus w) ++ [command]; pending := rest |} w).
Proof. intros E. unfold read_bus_data_daly. now rewrite E. Qed.

(** More frames, one request: [read_bus_data_daly] takes the expected
    number of frames, and blocks when fewer are pending. *)
Lemma collect_counts (n : nat) (frames : list (list byte)) :
  forall (count : nat) (response : list byte),
    (count < n)%nat ->
    collect n count response frames =
      if (n - count <=? length frames)%nat
      then Some (response ++ concat (take (n - count) frames),
                 drop (n - count) frames)
      else None.
Proof.
  induction frames as [|msg rest IH]; intros count response C; cbn [collect].
  - destruct (Nat.leb_spec (n - count) (length (@nil (list byte)))) as [H|H];
      [cbn in H; lia | reflexivity].
  - destruct (Nat.eqb_spec (S count) n) as [<-|N].
    + replace (S count - count)%nat with 1%nat by lia.
      cbn. now rewrite app_nil_r.
    + rewrite IH by lia.
      replace (n - count)%nat with (S (n - S count)) by lia.
      cbn [length take drop concat Nat.leb].
      destruct (_ <=? _)%nat; [|reflexivity].
      now rewrite app_assoc.
Qed.

Lemma collect_never (n : nat) (frames : list (list byte)) :
  forall (count : nat) (response : list byte),
    (n <= count)%nat -> collect n count response frames = None.
Proof.
  induction frames as [|msg rest IH]; intros count response C; cbn [collect];
    [reflexivity|].
  destruct (Nat.eqb_spec (S count) n) as [E|N]; [lia|]. apply IH. lia.
Qed.

Lemma read_bus_data_daly_take (command : Z) (n : nat) (w : World) :
  (1 <= n <= length (pending (bus w)))%nat ->
  read_bus_data_daly (Some TheBus) command n w =
    Ret (concat (take n (pending (bus w))))
      (with_bus {| sent := sent (bus w) ++ [command];
                   pending := drop n (pending (bus w)) |} w).
Proof.
  intros [Lo Hi]. unfold read_bus_data_daly.
  rewrite collect_counts by lia. rewrite Nat.sub_0_r.
  now apply Nat.leb_le in Hi as ->.
Qed.

Lemma read_bus_data_daly_starved (command : Z) (n : nat) (w : World) :
  (n = 0 \/ length (pending (bus w)) < n)%nat ->
  read_bus_data_daly (Some TheBus) command n w =
    Blocked (with_bus {| sent := sent (bus w) ++ [command]; pending := [] |} w).
Proof.
  intros H. unfold read_bus_data_daly.
  destruct (Nat.eq_dec n 0%nat) as [->|N].
  - now rewrite collect_never by lia.
  - rewrite collect_counts by lia. rewrite Nat.sub_0_r.
    destruct H as [H|H]; [lia|]. now apply Nat.leb_gt in H as ->.
Qed.

(** [pure_step] runs a step that neither reads the bus nor fails;
    [bus_step] a one-frame read on a bus whose next frame is known. *)
Ltac pure_step := erewrite bind_Ret by reflexivity.
Ltac bus_step :=
  erewrite bind_Ret by (apply read_bus_data_daly_one; cbn; eassumption).

(** ** [struct.unpack_from] on long and short buffers *)

Lemma unpack_from_enough (format : string) (ks : list code) (buffer : list byte)
    (offset : nat) :
  parse_format format = Some ks ->
  (offset + calcsize ks <= length buffer)%nat ->
  unpack_from format buffer offset =
    Ok (unpack ks (take (calcsize ks) (drop offset buffer))).
Proof.
  intros P L. unfold unpack_from. rewrite P.
  now apply Nat.leb_le in L as ->.
Qed.

Lemma unpack_from_short (format : string) (ks : list code) (buffer : list byte)
    (offset : nat) :
  parse_format format = Some ks ->
  (length buffer < offset + calcsize ks)%nat ->
  unpack_from format buffer offset = Err StructError.
Proof.
  intros P L. unfold unpack_from. rewrite P.
  now apply Nat.leb_gt in L as ->.
Qed.

(** ** Wire bytes *)

Lemma byte_val_range (b : byte) : 0 <= byte_val b < 256.
Proof. destruct b; vm_compute; split; first [reflexivity | discriminate]. Qed.

(** ** C1: decoding a plausible SOC frame *)

Lemma read_soc_tries_plausible (utils : Utils) (n : nat) (w : World)
    (v1 v2 r1 r2 c1 c2 s1 s2 : byte) (tl : list byte) (rest : list (list byte)) :
  pending (bus w) = (v1 :: v2 :: r1 :: r2 :: c1 :: c2 :: s1 :: s2 :: tl) :: rest ->
  plausible utils (physical_current utils (int_be [c1; c2])) = true ->
  read_soc_tries utils (S n) (Some TheBus) (crntMinValid utils) (crntMaxValid utils) w =
    Ret true
      (with_self
         (set_soc (Some (truediv (int_be [s1; s2]) 10))
            (set_current (Some (physical_current utils (int_be [c1; c2])))
               (set_voltage (Some (truediv (int_be [v1; v2]) 10)) (self w))))
         (with_bus {| sent := sent (bus w) ++ [command_soc (self w)];
                      pending := rest |} w)).
Proof.
  intros E P.
  cbn [read_soc_tries].
  pure_step. bus_step. cbn [is_False].
  change (unpack_from ">hhhh" _ 0)
    with (Ok [VInt (int_be [v1; v2]); VInt (int_be [r1; r2]);
              VInt (int_be [c1; c2]); VInt (int_be [s1; s2])]).
  cbv beta iota.
  change (_ && _) with (plausible utils (physical_current utils (int_be [c1; c2]))).
  rewrite P.
  reflexivity.
Qed.



(** Likewise a voltage or SOC field of 0xffff is stored as -0.1, not as
    6553.5. *)
Example read_soc_data_top_bit_voltage :
  let w := world_of daly0 [soc_frame_top_bit_voltage] in
  let o := read_soc_data utils0 (Some TheBus) w in
  returned o = Some true /\
  voltage (self (final o)) = Some (truediv (-1) 10) /\
  soc (self (final o)) = Some (truediv (-1) 10) /\
  uint_be [xff; xff] = 65535.
Proof. vm_compute. repeat split. Qed.



(** ** C3: two implausible readings *)

Lemma read_soc_tries_implausible (utils : Utils) (n : nat) (w : World)
    (v1 v2 r1 r2 c1 c2 s1 s2 : byte) (tl : list byte) (rest : list (list byte)) :
  pending (bus w) = (v1 :: v2 :: r1 :: r2 :: c1 :: c2 :: s1 :: s2 :: tl) :: rest ->
  plausible utils (physical_current utils (int_be [c1; c2])) = false ->
  read_soc_tries utils (S n) (Some TheBus) (crntMinValid utils) (crntMaxValid utils) w =
    read_soc_tries utils n (Some TheBus) (crntMinValid utils) (crntMaxValid utils)
      (with_bus {| sent := sent (bus w) ++ [command_soc (self w)];
                   pending := rest |} w).
Proof.
  intros E P.
  cbn [read_soc_tries].
  pure_step. bus_step. cbn [is_False].
  change (unpack_from ">hhhh" _ 0)
    with (Ok [VInt (int_be [v1; v2]); VInt (int_be [r1; r2]);
              VInt (int_be [c1; c2]); VInt (int_be [s1; s2])]).
  cbv beta iota.
  change (_ && _) with (plausible utils (physical_current utils (int_be [c1; c2]))).
  rewrite P.
  reflexivity.
Qed.

(** C3. When both frames answering the SOC request decode to a current
    outside the bounds, [read_soc_data] sends the request twice, reads those
    two frames and no more, returns [False], and leaves the driver object
    (so [voltage], [current] and [soc]) as it was. *)
Theorem read_soc_data_implausible (utils : Utils) (w : World)
    (v1 v2 r1 r2 c1 c2 s1 s2 : byte) (tl : list byte)
    (v1' v2' r1' r2' c1' c2' s1' s2' : byte) (tl' : list byte)
    (rest : list (list byte)) :
  pending (bus w) =
    (v1 :: v2 :: r1 :: r2 :: c1 :: c2 :: s1 :: s2 :: tl)
    :: (v1' :: v2' :: r1' :: r2' :: c1' :: c2' :: s1' :: s2' :: tl') :: rest ->
  plausible utils (physical_current utils (int_be [c1; c2])) = false ->
  plausible utils (physical_current utils (int_be [c1'; c2'])) = false ->
  exists w',
    read_soc_data utils (Some TheBus) w = Ret false w' /\
    self w' = self w /\
    voltage (self w') = voltage (self w) /\
    current (self w') = current (self w) /\
    soc (self w') = soc (self w) /\
    sent (bus w') = sent (bus w) ++ [command_soc (self w); command_soc (self w)] /\
    pending (bus w') = rest.
Proof.
  intros E P1 P2.
  unfold read_soc_data. pure_step.
  change (_ * 1.3)%float with (crntMaxValid utils).
  change (- _)%float with (crntMinValid utils).
  erewrite read_soc_tries_implausible; [| exact E | exact P1].
  erewrite read_soc_tries_implausible; [| reflexivity | exact P2].
  eexists. split; [reflexivity|]. cbn.
  repeat split. now rewrite <- app_assoc.
Qed.

Lemma read_soc_data_implausible_witness :
  exists w',
    read_soc_data utils0 (Some TheBus)
      (world_of daly0 [soc_frame_implausible; soc_frame_implausible; fet_frame])
    = Ret false w' /\
    self w' = daly0 /\
    voltage (self w') = None /\ current (self w') = None /\ soc (self w') = None /\
    sent (bus w') = [0x18900140; 0x18900140] /\
    pending (bus w') = [fet_frame].
Proof.
  apply (read_soc_data_implausible utils0
           (world_of daly0 [soc_frame_implausible; soc_frame_implausible; fet_frame])
           x02 x14 x00 x00 x00 x00 x03 xe8 []
           x02 x14 x00 x00 x00 x00 x03 xe8 [] [fet_frame]); reflexivity.
Defined.

(** ** C6: the alarm bits *)

(** The masks of [read_alarm_data] on the signed byte [unpack_from]
    delivers select the bits of the wire byte. *)
Lemma masks_select_bits (b : byte) :
  let v := int_be [b] in
  truthy (Z.land v 48) = bit b 4 || bit b 5 /\
  truthy (Z.land v 15) = bit b 0 || bit b 1 || bit b 2 || bit b 3 /\
  truthy (Z.land v 128) = bit b 7 /\
  truthy (Z.land v 64) = bit b 6 /\
  truthy (Z.land v 32) = bit b 5 /\
  truthy (Z.land v 16) = bit b 4 /\
  truthy (Z.land v 8) = bit b 3 /\
  truthy (Z.land v 4) = bit b 2 /\
  truthy (Z.land v 2) = bit b 1 /\
  truthy (Z.land v 1) = bit b 0.
Proof. destruct b; vm_compute; repeat split. Qed.

Lemma severity_level (alarm prealarm : bool) :
  severity alarm prealarm = level alarm prealarm.
Proof. now destruct alarm, prealarm. Qed.

(** C6. For an alarm frame of at least 8 bytes [read_alarm_data] returns
    [True] and assigns each condition from its own bits, the alarm bits
    first: [high_voltage] is 2 when bit 4 or 5 of the voltage byte is set,
    else 1 when one of bits 0-3 is set, else 0; [low_voltage] from bit 7
    over bit 6; the four temperature conditions from bits 1/0, 3/2, 5/4 and
    7/6 of the temperature byte; [high_charge_current] from bits 1 or 3 over
    bits 0 or 2 and [low_soc] from bit 7 over bit 6 of the current/SOC
    byte. *)
Theorem read_alarm_data_levels (w : World)
    (al_volt al_temp al_crnt_soc al_diff al_mos al_misc1 al_misc2 al_fault : byte)
    (tl : list byte) (rest : list (list byte)) :
  pending (bus w) =
    (al_volt :: al_temp :: al_crnt_soc :: al_diff :: al_mos :: al_misc1
     :: al_misc2 :: al_fault :: tl) :: rest ->
  exists w',
    read_alarm_data (Some TheBus) w = Ret true w' /\
    protection (self w') = alarm_levels al_volt al_temp al_crnt_soc.
Proof.
  intros E.
  unfold read_alarm_data. pure_step. pure_step. bus_step. cbn [is_False].
  change (unpack_from ">bbbbbbbb" _ 0)
    with (Ok [VInt (int_be [al_volt]); VInt (int_be [al_temp]);
              VInt (int_be [al_crnt_soc]); VInt (int_be [al_diff]);
              VInt (int_be [al_mos]); VInt (int_be [al_misc1]);
              VInt (int_be [al_misc2]); VInt (int_be [al_fault])]).
  cbv beta iota.
  destruct (masks_select_bits al_volt) as (V48 & V15 & V128 & V64 & _).
  destruct (masks_select_bits al_temp)
    as (_ & _ & T128 & T64 & T32 & T16 & T8 & T4 & T2 & T1).
  destruct (masks_select_bits al_crnt_soc)
    as (_ & _ & C128 & C64 & _ & _ & C8 & C4 & C2 & C1).
  cbv zeta in *.
  rewrite V48, V15, V128, V64, T128, T64, T32, T16, T8, T4, T2, T1,
    C128, C64, C8, C4, C2, C1.
  rewrite !severity_level.
  eexists. split; [reflexivity|]. reflexivity.
Qed.

Lemma read_alarm_data_levels_witness :
  exists w',
    read_alarm_data (Some TheBus) (world_of daly0 [alarm_frame]) = Ret true w' /\
    protection (self w') = alarm_levels x30 x02 x40.
Proof.
  apply (read_alarm_data_levels (world_of daly0 [alarm_frame])
           x30 x02 x40 x00 x00 x00 x00 x00 [] []); reflexivity.
Defined.

(** The three bytes the specification lists. *)
Example high_voltage_levels :
  Protection.high_voltage (alarm_levels x30 x00 x00) = Some 2 /\
  Protection.high_voltage (alarm_levels x08 x00 x00) = Some 1 /\
  Protection.high_voltage (alarm_levels x00 x00 x00) = Some 0 /\
  Protection.high_voltage (alarm_levels x3f x00 x00) = Some 2.
Proof. repeat split. Qed.

(** ** C10: per-cell voltages before the cell count is known *)

(** C10. While [cell_count] is [None], [read_cells_volts] returns [True]
    without sending a request, without reading a frame and without
    assigning any attribute. *)
Theorem read_cells_volts_unknown_count (utils : Utils) (can_bus' : option BusRef)
    (w : World) :
  cell_count (self w) = None ->
  exists w',
    read_cells_volts utils can_bus' w = Ret true w' /\
    self w' = self w /\ bus w' = bus w.
Proof.
  intros E. unfold read_cells_volts. pure_step. pure_step.
  cbn [self with_calls]. rewrite E. eexists. split; [reflexivity|]. now split.
Qed.

Lemma read_cells_volts_unknown_count_witness :
  exists w',
    read_cells_volts utils0 (Some TheBus) (world_of daly0 [soc_frame_ok]) = Ret true w' /\
    self w' = daly0 /\ bus w' = {| sent := []; pending := [soc_frame_ok] |}.
Proof.
  apply (read_cells_volts_unknown_count utils0 (Some TheBus)
           (world_of daly0 [soc_frame_ok])); reflexivity.
Defined.

(** Step 2 of the cycle then reports success on the SOC and FET frames
    alone: no request for cell voltages is sent. *)
Example refresh_data_step2_unknown_count :
  let w := world_of (set_poll_step 2 daly0) [soc_frame_ok; fet_frame] in
  let o := refresh_data utils0 w in
  returned o = Some true /\
  sent (bus (final o)) = [command_soc daly0; command_fet daly0] /\
  cells (self (final o)) = [] /\
  poll_step (self (final o)) = 3.
Proof. vm_compute. repeat split. Qed.

(** ** C2: frames shorter than the layout *)

(** C2, what the code does.  Each single-frame decoder handed a frame
    shorter than its layout raises [struct.error]: the test
    [... is False], meant to catch a failed read, never holds for the
    bytearray [read_bus_data_daly] returns, so [unpack_from] runs on the
    short buffer.  No attribute is assigned, but the caller gets an
    exception, not [False]. *)
Theorem short_frame_raises (utils : Utils) (c : Call) (w : World)
    (payload : list byte) (rest : list (list byte)) :
  c <> Call_read_cells_volts ->
  pending (bus w) = payload :: rest ->
  (length payload < layout_size c)%nat ->
  exists w',
    decoder utils c (Some TheBus) w = Raise StructError w' /\
    self w' = self w.
Proof.
  intros NC E L.
  destruct c; try congruence; cbn [decoder layout_size] in *;
    [ unfold read_status_data | unfold read_soc_data, read_soc_tries
    | unfold read_fed_data | unfold read_cell_voltage_range_data
    | unfold read_alarm_data | unfold read_temperature_range_data ];
    pure_step; pure_step; bus_step; cbn [is_False];
    (erewrite unpack_from_short; [ | reflexivity | exact L ]);
    eexists; (split; [reflexivity|]); reflexivity.
Qed.

Lemma short_frame_raises_witness :
  exists w',
    read_soc_data utils0 (Some TheBus) (world_of daly0 [[]]) = Raise StructError w' /\
    self w' = daly0.
Proof.
  apply (short_frame_raises utils0 Call_read_soc_data (world_of daly0 [[]]) [] []);
    [discriminate | reflexivity | cbn; lia].
Defined.

(** The multi-frame decoder differs: six empty frames make it return
    [True], and a truncated frame makes it raise after the cell list has
    been re-created. *)
Example read_cells_volts_empty_frames :
  let o := read_cells_volts utils0 (Some TheBus)
             (world_of (set_cell_count (Some 4) daly0) [[]; []; []; []; []; []]) in
  returned o = Some true /\
  cells (self (final o)) = replicate 4 (Cell.new true).
Proof. vm_compute. split; reflexivity. Qed.

Example read_cells_volts_truncated_frame :
  let o := read_cells_volts utils0 (Some TheBus)
             (world_of (set_cell_count (Some 4) daly0)
                [[x01; x0c; xe4]; []; []; []; []; []]) in
  raised o = Some StructError /\
  cells (self (final o)) = replicate 4 (Cell.new true).
Proof. vm_compute. split; reflexivity. Qed.

(** ** What the decoders leave alone *)

Section Preserves.

Context {X : Type} (f : World -> X).

Lemma preserves_ret {A : Type} (a : A) : preserves f (mret a).
Proof. now intros w. Qed.

Lemma preserves_raise {A : Type} (e : exn) : preserves f (@raise A e).
Proof. now intros w. Qed.

Lemma preserves_attr {A : Type} (g : Daly_Can -> A) : preserves f (attr g).
Proof. now intros w. Qed.

(** [time()] and the cache callback only look at the world. *)
Lemma preserves_observe {A : Type} (g : World -> A) :
  preserves f (fun w => Ret (g w) w).
Proof. now intros w. Qed.

Lemma preserves_bind {A B : Type} (m : M A) (k : A -> M B) :
  preserves f m -> (forall a, preserves f (k a)) -> preserves f (m ≫= k).
Proof.
  intros Hm Hk w. specialize (Hm w). unfold mbind, M_bind.
  destruct (m w) as [a w1|e w1|w1]; cbn in Hm; try exact Hm.
  now rewrite Hk.
Qed.

Lemma preserves_assign (g : Daly_Can -> Daly_Can) :
  (forall w, f (with_self (g (self w)) w) = f w) -> preserves f (assign g).
Proof. intros H w. apply H. Qed.

Lemma preserves_read_bus_data_daly (can_bus' : option BusRef) (command : Z)
    (n : nat) :
  (forall b w, f (with_bus b w) = f w) ->
  preserves f (read_bus_data_daly can_bus' command n).
Proof.
  intros H w. unfold read_bus_data_daly.
  destruct can_bus' as [[]|]; [|reflexivity].
  destruct (collect _ _ _ _) as [[response rest]|]; apply H.
Qed.

End Preserves.

Ltac preserves_step :=
  first
    [ apply preserves_ret
    | apply preserves_raise
    | apply preserves_attr
    | apply preserves_assign; reflexivity
    | apply preserves_read_bus_data_daly; reflexivity
    | apply preserves_bind; [| intros ?]
    | match goal with
      | |- preserves _ (if ?b then _ else _) => destruct b
      | |- preserves _ (match ?x with _ => _ end) => destruct x
      end ].

Ltac preserves_tac := repeat preserves_step.

Lemma preserves_read_soc_tries (utils : Utils) (n : nat) (ser : option BusRef)
    (lo hi : float) :
  preserves control (read_soc_tries utils n ser lo hi).
Proof.
  induction n as [|n IH]; cbn [read_soc_tries]; [apply preserves_ret|].
  preserves_tac; exact IH.
Qed.

Lemma preserves_set_cell_voltage (cellnum : Z) (v : option float) :
  preserves control (set_cell_voltage cellnum v).
Proof. unfold set_cell_voltage. preserves_tac. Qed.

Lemma preserves_store_frame (frame : Z) (lowMin : float) (frameCell : list (Z * Z)) :
  preserves control (store_frame frame lowMin frameCell).
Proof.
  induction frameCell as [|[idx raw] rest IH]; cbn [store_frame];
    [apply preserves_ret|].
  apply preserves_bind; [apply preserves_attr|]. intros [n|]; [|apply preserves_raise].
  destruct (_ >=? _); [apply preserves_ret|].
  apply preserves_bind; [apply preserves_set_cell_voltage|]. intros _. exact IH.
Qed.

Lemma preserves_read_frames (fuel : nat) (data : list byte) (lowMin : float)
    (bufIdx : nat) :
  preserves control (read_frames fuel data lowMin bufIdx).
Proof.
  revert bufIdx. induction fuel as [|fuel IH]; intros bufIdx; cbn [read_frames];
    destruct (_ <? _)%nat; try apply preserves_ret.
  destruct (unpack_from _ _ _) as [vs|e]; [|apply preserves_raise].
  repeat match goal with
         | |- preserves _ (match ?x with _ => _ end) => destruct x
         end; try apply preserves_raise.
  apply preserves_bind; [apply preserves_store_frame|]. intros _. apply IH.
Qed.

(** Every decoder records its own entry and leaves [control] alone
    otherwise, whether it returns, raises or blocks. *)
Lemma decoder_control (utils : Utils) (c : Call) (ser : option BusRef) (w : World) :
  control (final (decoder utils c ser w)) = (calls w ++ [c], snd (control w)).
Proof.
  assert (Hbody : forall (body : M bool), preserves control body ->
            control (final ((enter c ≫= fun _ => body) w))
            = (calls w ++ [c], snd (control w))).
  { intros body Hb. erewrite bind_Ret by reflexivity. now rewrite Hb. }
  destruct c; cbn [decoder];
    [ unfold read_status_data | unfold read_soc_data | unfold read_fed_data
    | unfold read_cell_voltage_range_data | unfold read_alarm_data
    | unfold read_cells_volts | unfold read_temperature_range_data ];
    apply Hbody.
  - preserves_tac.
  - apply preserves_read_soc_tries.
  - preserves_tac.
  - preserves_tac.
  - unfold assign_protection. preserves_tac.
  - apply preserves_bind; [apply preserves_attr|]. intros [n|]; [|apply preserves_ret].
    apply preserves_bind; [apply preserves_attr|]. intros command.
    apply preserves_bind; [apply preserves_read_bus_data_daly; reflexivity|].
    intros data. cbn [is_False].
    apply preserves_bind; [apply preserves_attr|]. intros cs.
    apply preserves_bind; [preserves_tac|]. intros _.
    apply preserves_bind; [apply preserves_read_frames|]. intros _.
    apply preserves_ret.
  - preserves_tac.
Qed.

(** ** The polling cycle *)

(** The three stages of [refresh_data]: the SOC read, the FET read when the
    SOC read returned [True], the read of the current step when both did;
    then step 3 resets [poll_step] to -1, and [poll_step] is incremented. *)
Lemma refresh_data_stages (utils : Utils) (w : World) :
  refresh_data utils w =
    match read_soc_data utils (can_bus (self w)) w with
    | Ret r1 w1 =>
        match and_then r1 (read_fed_data (can_bus (self w1))) w1 with
        | Ret r2 w2 =>
            match optional_read utils (poll_step (self w2)) r2 w2 with
            | Ret r3 w3 =>
                Ret r3
                  (with_self
                     (set_poll_step
                        ((if poll_step (self w2) =? 3 then -1
                          else poll_step (self w3)) + 1)
                        (self w3)) w3)
            | Raise e w3 => Raise e w3
            | Blocked w3 => Blocked w3
            end
        | Raise e w2 => Raise e w2
        | Blocked w2 => Blocked w2
        end
    | Raise e w1 => Raise e w1
    | Blocked w1 => Blocked w1
    end.
Proof.
  unfold refresh_data.
  pure_step.
  unfold mbind at 1, M_bind at 1.
  destruct (read_soc_data utils (can_bus (self w)) w) as [r1 w1|e w1|w1];
    try reflexivity.
  pure_step.
  unfold mbind at 1, M_bind at 1.
  destruct (and_then r1 (read_fed_data (can_bus (self w1))) w1) as [r2 w2|e w2|w2];
    try reflexivity.
  pure_step.
  unfold optional_read, optional_call.
  destruct (poll_step (self w2) =? 0) eqn:E0;
    [|destruct (poll_step (self w2) =? 1) eqn:E1;
      [|destruct (poll_step (self w2) =? 2) eqn:E2;
        [|destruct (poll_step (self w2) =? 3) eqn:E3]]];
    cbn [decoder];
    try (apply Z.eqb_eq in E0; rewrite E0; cbn [Z.eqb]);
    try (apply Z.eqb_eq in E1; rewrite E1; cbn [Z.eqb Pos.eqb]);
    try (apply Z.eqb_eq in E2; rewrite E2; cbn [Z.eqb Pos.eqb]);
    unfold mbind, M_bind, attr;
    match goal with
    | |- context [and_then r2 ?d w2] => destruct (and_then r2 d w2)
    | _ => idtac
    end; reflexivity.
Qed.

Lemma and_then_control (utils : Utils) (r : bool) (c : Call) (ser : option BusRef)
    (w : World) :
  control (final (and_then r (decoder utils c ser) w))
  = (calls w ++ (if r then [c] else []), snd (control w)).
Proof.
  destruct r; cbn [and_then].
  - apply decoder_control.
  - cbn. now rewrite app_nil_r.
Qed.

Lemma optional_read_control (utils : Utils) (step : Z) (r : bool) (w : World) :
  control (final (optional_read utils step r w))
  = (calls w ++ (if r then option_list (optional_call step) else []),
     snd (control w)).
Proof.
  unfold optional_read. destruct (optional_call step) as [c|].
  - erewrite bind_Ret by reflexivity. apply and_then_control.
  - cbn. destruct r; now rewrite app_nil_r.
Qed.

Lemma optional_read_false (utils : Utils) (step : Z) (w : World) (r : bool)
    (w' : World) :
  optional_read utils step false w = Ret r w' -> r = false.
Proof.
  unfold optional_read. destruct (optional_call step) as [c|].
  - erewrite bind_Ret by reflexivity. cbn [and_then]. now intros [= <- _].
  - now intros [= <- _].
Qed.

(** The reads of an invocation, stage by stage. *)
Lemma reads_of_stages (utils : Utils) (w : World) :
  reads_of utils w =
    Call_read_soc_data ::
    match read_soc_data utils (can_bus (self w)) w with
    | Ret true w1 =>
        Call_read_fed_data ::
        match read_fed_data (can_bus (self w1)) w1 with
        | Ret true w2 => option_list (optional_call (poll_step (self w)))
        | _ => []
        end
    | _ => []
    end.
Proof.
  unfold reads_of. rewrite refresh_data_stages.
  pose proof (decoder_control utils Call_read_soc_data (can_bus (self w)) w) as C1.
  cbn [decoder] in C1.
  destruct (read_soc_data utils (can_bus (self w)) w) as [r1 w1|e w1|w1];
    cbn [final] in *; injection C1 as C1 S1.
  2,3: now rewrite C1, drop_app_length.
  pose proof (and_then_control utils r1 Call_read_fed_data (can_bus (self w1)) w1) as C2.
  cbn [decoder] in C2.
  destruct r1.
  - cbn [and_then] in *.
    destruct (read_fed_data (can_bus (self w1)) w1) as [r2 w2|e w2|w2];
      cbn [final] in *; injection C2 as C2 S2.
    2,3: now rewrite C2, C1, <- app_assoc, drop_app_length.
    pose proof (optional_read_control utils (poll_step (self w2)) r2 w2) as C3.
    assert (P : poll_step (self w2) = poll_step (self w)) by congruence.
    destruct (optional_read utils (poll_step (self w2)) r2 w2) as [r3 w3|e w3|w3];
      cbn [final] in *; injection C3 as C3 S3;
      cbn [calls with_self]; rewrite C3, C2, C1, P, <- !app_assoc, drop_app_length;
      now destruct r2.
  - cbn [and_then mret M_ret final] in *. clear C2.
    pose proof (optional_read_control utils (poll_step (self w1)) false w1) as C3.
    destruct (optional_read utils (poll_step (self w1)) false w1) as [r3 w3|e w3|w3];
      cbn [final] in *; injection C3 as C3 S3;
      cbn [calls with_self]; rewrite C3, C1, <- !app_assoc, drop_app_length;
      reflexivity.
Qed.

(** [poll_step] after an invocation: advanced when it returns, whatever it
    returns; untouched when a read raises or blocks. *)
Lemma refresh_data_poll_step (utils : Utils) (w : World) :
  poll_step (self (final (refresh_data utils w))) =
    match refresh_data utils w with
    | Ret _ _ => if poll_step (self w) =? 3 then 0 else poll_step (self w) + 1
    | _ => poll_step (self w)
    end.
Proof.
  rewrite refresh_data_stages.
  pose proof (decoder_control utils Call_read_soc_data (can_bus (self w)) w) as C1.
  cbn [decoder] in C1.
  destruct (read_soc_data utils (can_bus (self w)) w) as [r1 w1|e w1|w1];
    cbn [final] in *; injection C1 as _ S1 _ _ _; try exact S1.
  pose proof (and_then_control utils r1 Call_read_fed_data (can_bus (self w1)) w1) as C2.
  cbn [decoder] in C2.
  destruct (and_then r1 (read_fed_data (can_bus (self w1))) w1) as [r2 w2|e w2|w2];
    cbn [final] in *; injection C2 as _ S2 _ _ _; try congruence.
  pose proof (optional_read_control utils (poll_step (self w2)) r2 w2) as C3.
  destruct (optional_read utils (poll_step (self w2)) r2 w2) as [r3 w3|e w3|w3];
    cbn [final] in *; injection C3 as _ S3 _ _ _; try congruence.
  cbn [self with_self poll_step set_poll_step].
  rewrite S3, S2, S1. now destruct (poll_step (self w) =? 3).
Qed.

(** An invocation that returns [True] has run the SOC read, the FET read
    and the read of its step, all three returning [True]. *)
Lemma refresh_data_true_reads (utils : Utils) (w w' : World) :
  refresh_data utils w = Ret true w' ->
  reads_of utils w =
    Call_read_soc_data :: Call_read_fed_data ::
    option_list (optional_call (poll_step (self w))).
Proof.
  intros R. rewrite reads_of_stages. rewrite refresh_data_stages in R.
  destruct (read_soc_data utils (can_bus (self w)) w) as [r1 w1|e w1|w1];
    try discriminate.
  destruct r1.
  - cbn [and_then] in R.
    destruct (read_fed_data (can_bus (self w1)) w1) as [r2 w2|e w2|w2];
      try discriminate.
    destruct r2; [reflexivity|].
    destruct (optional_read utils (poll_step (self w2)) false w2)
      as [r3 w3|e w3|w3] eqn:E3; try discriminate.
    apply optional_read_false in E3. congruence.
  - cbn [and_then mret M_ret] in R.
    destruct (optional_read utils (poll_step (self w1)) false w1)
      as [r3 w3|e w3|w3] eqn:E3; try discriminate.
    apply optional_read_false in E3. congruence.
Qed.

(** ** The requests of the SOC read *)


Lemma read_soc_data_None (utils : Utils) (w : World) :
  read_soc_data utils None w =
    Raise AttributeError (with_calls (calls w ++ [Call_read_soc_data]) w).
Proof.
  unfold read_soc_data. pure_step. cbn [read_soc_tries]. pure_step.
  now apply bind_Raise.
Qed.

(** ** C4: which reads an invocation performs *)

(** C4 as stated fails: when the SOC read returns [False], here after two
    implausible frames, [result and self.read_fed_data(...)] does not
    evaluate its right operand.  The FET request is never sent and the
    pending FET frame stays on the bus. *)
Lemma refresh_data_skips_fet_read :
  let w := world_of daly0 [soc_frame_implausible; soc_frame_implausible; fet_frame] in
  let o := refresh_data utils0 w in
  returned o = Some false /\
  reads_of utils0 w = [Call_read_soc_data] /\
  ~ In Call_read_fed_data (reads_of utils0 w) /\
  sent (bus (final o)) = [command_soc daly0; command_soc daly0] /\
  pending (bus (final o)) = [fet_frame].
Proof.
  vm_compute. repeat split. intros [H|[]]. discriminate H.
Qed.

(** C4, amended.  Every invocation of [refresh_data] performs the SOC read,
    whatever [poll_step] is; it performs the FET read exactly when the SOC
    read returned [True]. *)
Theorem refresh_data_soc_then_fet (utils : Utils) (w : World) :
  In Call_read_soc_data (reads_of utils w) /\
  (In Call_read_fed_data (reads_of utils w) <->
   returned (read_soc_data utils (can_bus (self w)) w) = Some true).
Proof.
  rewrite reads_of_stages. split; [now left|].
  destruct (read_soc_data utils (can_bus (self w)) w) as [[|] w1|e w1|w1];
    cbn [returned].
  - split; [reflexivity|]. intros _. right. now left.
  - split; [|discriminate]. intros [H|[]]. discriminate H.
  - split; [|discriminate]. intros [H|[]]. discriminate H.
  - split; [|discriminate]. intros [H|[]]. discriminate H.
Qed.

(** ** C5: the round robin *)

(** *** What a decoder puts on the bus *)











(** *** One successful invocation *)


(** *** The claim *)




(** With the cell count known, the third invocation sends the request for
    cell voltages and takes the six frames. *)
Example refresh_data_reads_cell_voltages :
  sent (bus cycle_world3) =
    sent (bus cycle_world2)
      ++ [command_soc daly0; command_fet daly0; command_cell_volts daly0] /\
  length (pending (bus cycle_world2)) = (length (pending (bus cycle_world3)) + 8)%nat /\
  Cell.voltage <$> cells (self cycle_world3) =
    [Some 3.3%float; Some 3.3%float; Some 3.3%float; Some 3.3%float].
Proof.
  repeat match goal with |- _ /\ _ => split end; vm_compute; reflexivity.
Qed.

(** On the object as the constructor leaves it, with [can_bus = None], the
    first request raises. *)
Example refresh_data_without_bus :
  let w := world_of (new_Daly_Can None) [soc_frame_ok] in
  raised (refresh_data utils0 w) = Some AttributeError /\
  poll_step (self (final (refresh_data utils0 w))) = poll_step (self w).
Proof. vm_compute. now split. Qed.

(** A cycle whose SOC frame is truncated raises and stays on its step. *)
Example refresh_data_raise_keeps_step :
  let w := world_of daly0 [[x02; x14]] in
  raised (refresh_data utils0 w) = Some StructError /\
  poll_step (self (final (refresh_data utils0 w))) = poll_step (self w).
Proof. vm_compute. now split. Qed.

(** A cycle whose SOC read returns [False] still advances. *)
Example refresh_data_false_advances :
  let w := world_of daly0 [soc_frame_implausible; soc_frame_implausible] in
  returned (refresh_data utils0 w) = Some false /\
  poll_step (self (final (refresh_data utils0 w))) = 1.
Proof. vm_compute. now split. Qed.

(** ** C8: the error latch *)

Lemma preserves_read_cache_items (items : list (Z * list byte)) (data_check : Z) :
  preserves (fun w => error_active (self w)) (read_cache_items items data_check).
Proof.
  revert data_check.
  induction items as [|[frame_id data] rest IH]; intros data_check;
    cbn [read_cache_items]; [apply preserves_ret|].
  apply preserves_bind; [apply preserves_attr|]. intros device_address'.
  destruct (getitem CAN_FRAMES COMMAND_STATUS) as [ids|e]; [|apply preserves_raise].
  destruct (existsb _ ids); [|apply IH].
  destruct (unpack_from _ _ _) as [vs|e]; [|apply preserves_raise].
  repeat match goal with
         | |- preserves _ (match ?x with _ => _ end) => destruct x
         end; try apply preserves_raise.
  repeat (apply preserves_bind; [apply preserves_assign; reflexivity|]; intros _).
  apply IH.
Qed.

(** [refresh_data] never assigns [error_active]. *)
Lemma refresh_data_error_active (utils : Utils) (w : World) :
  error_active (self (final (refresh_data utils w))) = error_active (self w).
Proof.
  rewrite refresh_data_stages.
  pose proof (decoder_control utils Call_read_soc_data (can_bus (self w)) w) as C1.
  cbn [decoder] in C1.
  destruct (read_soc_data utils (can_bus (self w)) w) as [r1 w1|e w1|w1];
    cbn [final] in *; injection C1 as _ _ S1 _ _; try exact S1.
  pose proof (and_then_control utils r1 Call_read_fed_data (can_bus (self w1)) w1) as C2.
  cbn [decoder] in C2.
  destruct (and_then r1 (read_fed_data (can_bus (self w1))) w1) as [r2 w2|e w2|w2];
    cbn [final] in *; injection C2 as _ _ S2 _ _; try congruence.
  pose proof (optional_read_control utils (poll_step (self w2)) r2 w2) as C3.
  destruct (optional_read utils (poll_step (self w2)) r2 w2) as [r3 w3|e w3|w3];
    cbn [final] in *; injection C3 as _ _ S3 _ _; try congruence.
  cbn [self with_self error_active set_poll_step]. congruence.
Qed.

(** C8 as stated fails for the polling cycle: [refresh_data] does not look
    at the latch.  With the latch set and 121 seconds gone, a cycle that
    succeeds leaves [error_active] true. *)
Lemma refresh_data_keeps_error_latch :
  let w := latched_world 121 [soc_frame_ok; fet_frame; range_frame] in
  error_active (self w) = true /\
  (120.0 <? clock w - last_error_time (self w))%float = true /\
  returned (refresh_data utils0 w) = Some true /\
  error_active (self (final (refresh_data utils0 w))) = true.
Proof. vm_compute. repeat split. Qed.

(** C8, amended.  The latch is evaluated at the start of each invocation of
    [read_daly_can], the cache read: afterwards [error_active] is true
    exactly when it was true before and [time() - last_error_time > 120.0]
    does not hold.  [refresh_data] leaves [error_active] as it is. *)
Theorem read_daly_can_error_latch (utils : Utils) (w : World) :
  error_active (self (final (read_daly_can w))) =
    error_active (self w)
    && negb (120.0 <? clock w - last_error_time (self w))%float /\
  error_active (self (final (refresh_data utils w))) = error_active (self w).
Proof.
  split; [|apply refresh_data_error_active].
  unfold read_daly_can. do 3 pure_step.
  destruct (error_active (self w)) eqn:A;
    destruct (120.0 <? clock w - last_error_time (self w))%float eqn:L;
    cbn [andb negb]; pure_step;
    match goal with
    | |- error_active (self (final (?m ?w1))) = _ =>
        assert (Hm : preserves (fun w => error_active (self w)) m)
          by (apply preserves_bind; [apply preserves_observe|]; intros items;
              apply preserves_bind; [apply preserves_read_cache_items|];
              intros n; destruct (n =? 0); apply preserves_ret);
        pose proof (Hm w1) as H; cbv beta in H; rewrite H
    end; cbn; try exact A; reflexivity.
Qed.

(** The two instants the specification names, on an empty cache. *)
Example error_latch_121_seconds :
  error_active (self (final (read_daly_can (latched_world 121 [])))) = false.
Proof. reflexivity. Qed.

Example error_latch_119_seconds :
  error_active (self (final (read_daly_can (latched_world 119 [])))) = true.
Proof. reflexivity. Qed.

(** ** C9: the two ways a status frame is decoded *)

(** [X] is not a format character: the format of the cache path is
    rejected whatever the buffer holds. *)
Lemma cache_format_rejected (data : list byte) :
  unpack_from ">BB??BHX" data 0 = Err StructError.
Proof. reflexivity. Qed.

(** So a status frame in the cache makes [read_daly_can] raise before it
    assigns anything. *)
Lemma read_daly_can_raises (w : World) (frame_id : Z) (data : list byte)
    (rest : list (Z * list byte)) :
  can_message_cache w = (frame_id, data) :: rest ->
  frame_id + device_address (self w) = 0x18940140 ->
  raised (read_daly_can w) = Some StructError /\
  cell_count (self (final (read_daly_can w))) = cell_count (self w).
Proof.
  intros C I. unfold read_daly_can. do 3 pure_step.
  assert (G : forall w1 : World,
            can_message_cache w1 = (frame_id, data) :: rest ->
            frame_id + device_address (self w1) = 0x18940140 ->
            (can_message_cache_callback ≫= fun items =>
             read_cache_items items 0 ≫= fun data_check =>
             if data_check =? 0 then mret false else mret true) w1
            = Raise StructError w1).
  { intros w1 C1 I1. erewrite bind_Ret by reflexivity.
    apply bind_Raise. rewrite C1. cbn [read_cache_items].
    erewrite bind_Ret by reflexivity. cbn [getitem CAN_FRAMES]. cbn.
    now rewrite I1. }
  destruct (_ && _); pure_step; rewrite G by assumption; now split.
Qed.

(** C9, what the code does.  On the same status frame the request/response
    path decodes and stores the five values, while the cache path raises
    [struct.error] on its format [>BB??BHX] and stores nothing
    ([test_connection] turns that into [False]).  And were [X] the pad
    character [x], the two formats would still read the counts with
    different signedness ([b], [h] against [B], [H]). *)
Theorem status_paths_diverge :
  let sync := read_status_data (Some TheBus) (world_of daly0 [status_frame]) in
  let pull := read_daly_can (cache_world status_frame) in
  (returned sync = Some true /\
   cell_count (self (final sync)) = Some 16 /\
   temp_sensors (self (final sync)) = Some 2 /\
   charger_connected (self (final sync)) = Some false /\
   load_connected (self (final sync)) = Some true /\
   History.charge_cycles (history (self (final sync))) = Some 100) /\
  (raised pull = Some StructError /\
   cell_count (self (final pull)) = None /\
   temp_sensors (self (final pull)) = None /\
   charger_connected (self (final pull)) = None /\
   load_connected (self (final pull)) = None /\
   History.charge_cycles (history (self (final pull))) = None /\
   returned (test_connection utils0 (cache_world status_frame)) = Some false) /\
  (unpack_from ">bb??bhx" status_frame_high 0 =
     Ok [VInt (-128); VInt 2; VBool false; VBool true; VInt 0; VInt (-32768)] /\
   unpack_from ">BB??BHx" status_frame_high 0 =
     Ok [VInt 128; VInt 2; VBool false; VBool true; VInt 0; VInt 32768]).
Proof. vm_compute. repeat split. Qed.

(** ** C7: assembling the per-cell voltages *)

Lemma set_cells_cells (s : Daly_Can) : set_cells (cells s) s = s.
Proof. now destruct s. Qed.

Lemma with_self_self (w : World) : with_self (self w) w = w.
Proof. now destruct w. Qed.

Lemma write_frame_length (utils : Utils) (n frame : Z) (frameCell : list (Z * Z))
    (cs : list Cell.t) :
  length (write_frame utils n frame frameCell cs) = length cs.
Proof.
  revert cs. induction frameCell as [|[idx raw] rest IH]; intros cs;
    cbn [write_frame]; [reflexivity|].
  destruct (_ >=? _); [reflexivity|]. now rewrite IH, length_alter.
Qed.

Lemma list_index_in_range (len : nat) (i : Z) :
  0 <= i < Z.of_nat len -> list_index len i = Some (Z.to_nat i).
Proof.
  intros [Lo Hi]. unfold list_index.
  apply Z.leb_le in Lo as ->. now apply Z.ltb_lt in Hi as ->.
Qed.

Lemma set_cell_voltage_in_range (cellnum : Z) (v : option float) (w : World) :
  0 <= cellnum < Z.of_nat (length (cells (self w))) ->
  set_cell_voltage cellnum v w =
    Ret tt (with_self
              (set_cells (alter (Cell.set_voltage v) (Z.to_nat cellnum)
                            (cells (self w))) (self w)) w).
Proof.
  intros R. unfold set_cell_voltage. pure_step.
  now rewrite list_index_in_range by exact R.
Qed.

Lemma store_frame_writes (utils : Utils) (n frame : Z) (frameCell : list (Z * Z))
    (w : World) :
  cell_count (self w) = Some n ->
  Z.of_nat (length (cells (self w))) = n ->
  1 <= frame ->
  Forall (fun p => 0 <= fst p) frameCell ->
  store_frame frame (lowMin utils) frameCell w =
    Ret tt (with_self
              (set_cells (write_frame utils n frame frameCell (cells (self w)))
                 (self w)) w).
Proof.
  intros C L F. revert w C L.
  induction frameCell as [|[idx raw] rest IH]; intros w C L P;
    cbn [store_frame write_frame].
  - now rewrite set_cells_cells, with_self_self.
  - apply Forall_cons in P as [P0 P]. cbn [fst] in P0.
    pure_step. rewrite C.
    destruct ((frame - 1) * 3 + idx >=? n) eqn:G.
    + now rewrite set_cells_cells, with_self_self.
    + rewrite Z.geb_leb in G. apply Z.leb_gt in G.
      erewrite bind_Ret by (apply set_cell_voltage_in_range; lia).
      rewrite IH; [reflexivity | exact C | | exact P].
      cbn. now rewrite length_alter.
Qed.

Lemma write_frames_length (utils : Utils) (n : Z) (frames : list CellFrame)
    (cs : list Cell.t) :
  length (write_frames utils n frames cs) = length cs.
Proof.
  unfold write_frames. revert cs.
  induction frames as [|fr frames IH]; intros cs; [reflexivity|].
  cbn [fold_left]. now rewrite IH, write_frame_length.
Qed.

Lemma unpack_from_cell_frame (pre : list byte) (fr : CellFrame) (post : list byte) :
  unpack_from ">Bhhh" (pre ++ wire fr ++ post) (length pre) =
    Ok [VInt (frame_index fr);
        VInt (int_be [cf_hi0 fr; cf_lo0 fr]);
        VInt (int_be [cf_hi1 fr; cf_lo1 fr]);
        VInt (int_be [cf_hi2 fr; cf_lo2 fr])].
Proof.
  erewrite unpack_from_enough; [| reflexivity |].
  - now rewrite drop_app_length.
  - rewrite !length_app. cbn. lia.
Qed.

Lemma read_frames_writes (utils : Utils) (n : Z) (frames : list CellFrame) :
  forall (pre : list byte) (fuel : nat) (w : World),
    cell_count (self w) = Some n ->
    Z.of_nat (length (cells (self w))) = n ->
    Forall (fun fr => 1 <= frame_index fr) frames ->
    (length frames <= fuel)%nat ->
    read_frames fuel (pre ++ concat (map wire frames)) (lowMin utils)
      (length pre) w =
      Ret tt (with_self
                (set_cells (write_frames utils n frames (cells (self w)))
                   (self w)) w).
Proof.
  induction frames as [|fr frames IH]; intros pre fuel w C L F Fu.
  - cbn [map concat write_frames fold_left]. rewrite app_nil_r.
    destruct fuel; cbn [read_frames]; rewrite Nat.ltb_irrefl;
      now rewrite set_cells_cells, with_self_self.
  - apply Forall_cons in F as [F1 F].
    destruct fuel as [|fuel]; [cbn in Fu; lia|].
    cbn [map concat read_frames].
    replace (length pre <? length (pre ++ wire fr ++ concat (map wire frames)))%nat
      with true by (symmetry; apply Nat.ltb_lt; rewrite !length_app; cbn; lia).
    rewrite unpack_from_cell_frame.
    erewrite bind_Ret
      by (apply (store_frame_writes utils n); [exact C | exact L | exact F1 |];
          repeat first [apply Forall_nil_2 | apply Forall_cons_2; [cbn; lia|]]).
    replace (length pre + 8)%nat with (length (pre ++ wire fr))
      by (rewrite length_app; reflexivity).
    rewrite (app_assoc pre (wire fr)).
    rewrite IH; [reflexivity | exact C | | exact F | cbn in Fu; lia].
    cbn [self with_self cells set_cells]. now rewrite write_frame_length.
Qed.

Lemma length_concat_wire (frames : list CellFrame) :
  length (concat (map wire frames)) = (8 * length frames)%nat.
Proof.
  induction frames as [|fr frames IH]; [reflexivity|].
  cbn [map concat]. rewrite length_app, IH. cbn [wire length]. lia.
Qed.

Lemma read_frames_writes_buffer (utils : Utils) (n : Z) (frames : list CellFrame)
    (w : World) :
  cell_count (self w) = Some n ->
  Z.of_nat (length (cells (self w))) = n ->
  Forall (fun fr => 1 <= frame_index fr) frames ->
  read_frames (length (concat (map wire frames))) (concat (map wire frames))
    (lowMin utils) 0 w =
    Ret tt (with_self
              (set_cells (write_frames utils n frames (cells (self w)))
                 (self w)) w).
Proof.
  intros C L F.
  apply (read_frames_writes utils n frames [] _ w C L F).
  rewrite length_concat_wire. lia.
Qed.

Lemma lookup_alter_Z (g : Cell.t -> Cell.t) (k : Z) (cs : list Cell.t) (i : nat)
    (c : Cell.t) :
  0 <= k ->
  cs !! i = Some c ->
  alter g (Z.to_nat k) cs !! i = Some (if Z.of_nat i =? k then g c else c).
Proof.
  intros K E. destruct (Z.eqb_spec (Z.of_nat i) k) as [<-|N].
  - now rewrite Nat2Z.id, list_lookup_alter_eq, E.
  - rewrite list_lookup_alter_ne by lia. exact E.
Qed.

Lemma write_frame_lookup (utils : Utils) (n : Z) (fr : CellFrame)
    (cs : list Cell.t) (i : nat) (c : Cell.t) :
  1 <= frame_index fr ->
  Z.of_nat i < n ->
  cs !! i = Some c ->
  write_frame utils n (frame_index fr) (frame_cells fr) cs !! i
  = Some (update_cell utils (Z.of_nat i) c fr).
Proof.
  intros F I E. unfold frame_cells, update_cell, covers. cbn [write_frame].
  set (k := (frame_index fr - 1) * 3).
  assert (K : 0 <= k) by (subst k; lia).
  destruct (k + 0 >=? n) eqn:G0; rewrite Z.geb_leb in G0;
    [apply Z.leb_le in G0 | apply Z.leb_gt in G0].
  { rewrite E.
    repeat match goal with
           | |- context [?a =? ?b] => destruct (Z.eqb_spec a b); try lia
           end. reflexivity. }
  destruct (k + 1 >=? n) eqn:G1; rewrite Z.geb_leb in G1;
    [apply Z.leb_le in G1 | apply Z.leb_gt in G1].
  { erewrite lookup_alter_Z; [| lia | exact E].
    repeat match goal with
           | |- context [?a =? ?b] => destruct (Z.eqb_spec a b); try lia
           end; reflexivity. }
  destruct (k + 2 >=? n) eqn:G2; rewrite Z.geb_leb in G2;
    [apply Z.leb_le in G2 | apply Z.leb_gt in G2].
  { erewrite lookup_alter_Z; [| lia | erewrite lookup_alter_Z; [reflexivity | lia | exact E]].
    repeat match goal with
           | |- context [?a =? ?b] => destruct (Z.eqb_spec a b); try lia
           end; reflexivity. }
  erewrite lookup_alter_Z;
    [| lia | erewrite lookup_alter_Z;
             [reflexivity | lia | erewrite lookup_alter_Z; [reflexivity | lia | exact E]]].
  repeat match goal with
         | |- context [?a =? ?b] => destruct (Z.eqb_spec a b); try lia
         end; reflexivity.
Qed.

Lemma write_frames_lookup (utils : Utils) (n : Z) (frames : list CellFrame) :
  forall (cs : list Cell.t) (i : nat) (c : Cell.t),
    Forall (fun fr => 1 <= frame_index fr) frames ->
    Z.of_nat i < n ->
    cs !! i = Some c ->
    write_frames utils n frames cs !! i
    = Some (fold_left (update_cell utils (Z.of_nat i)) frames c).
Proof.
  unfold write_frames.
  induction frames as [|fr frames IH]; intros cs i c F I E; [exact E|].
  apply Forall_cons in F as [F1 F]. cbn [fold_left].
  apply IH; [exact F | exact I |]. now apply write_frame_lookup.
Qed.

(** A cell after the frames: same [balance]; its voltage is the reading of
    the last frame that covers it, or the voltage it had. *)
Lemma update_cells_voltage (utils : Utils) (i : Z) (frames : list CellFrame) :
  forall (c : Cell.t) (acc : option Z) (v0 : option float),
    Cell.voltage c = match acc with Some mv => reading utils mv | None => v0 end ->
    Cell.voltage (fold_left (update_cell utils i) frames c) =
      match fold_left (fun acc fr =>
                         match covers fr i with Some mv => Some mv | None => acc end)
              frames acc with
      | Some mv => reading utils mv
      | None => v0
      end.
Proof.
  induction frames as [|fr frames IH]; intros c acc v0 E; [exact E|].
  cbn [fold_left]. apply IH. unfold update_cell.
  now destruct (covers fr i).
Qed.

Lemma update_cells_balance (utils : Utils) (i : Z) (frames : list CellFrame)
    (c : Cell.t) :
  Cell.balance (fold_left (update_cell utils i) frames c) = Cell.balance c.
Proof.
  revert c. induction frames as [|fr frames IH]; intros c; [reflexivity|].
  cbn [fold_left]. rewrite IH. unfold update_cell. now destruct (covers fr i).
Qed.

(** The fuel of [read_frames] never runs out: any two amounts that cover
    the bytes left behave alike, and [read_cells_volts] passes the length
    of the whole buffer. *)
Lemma read_frames_fuel (data : list byte) (lowMin' : float) :
  forall (fuel1 fuel2 bufIdx : nat),
    (length data - bufIdx <= fuel1)%nat ->
    (length data - bufIdx <= fuel2)%nat ->
    read_frames fuel1 data lowMin' bufIdx = read_frames fuel2 data lowMin' bufIdx.
Proof.
  induction fuel1 as [|fuel1 IH]; intros fuel2 bufIdx H1 H2.
  - destruct fuel2; cbn [read_frames];
      destruct (Nat.ltb_spec bufIdx (length data)); try reflexivity; lia.
  - destruct fuel2 as [|fuel2]; cbn [read_frames];
      destruct (Nat.ltb_spec bufIdx (length data)); try reflexivity; try lia.
    destruct (unpack_from _ _ _) as [vs|e]; [|reflexivity].
    repeat match goal with
           | |- match ?x with _ => _ end = _ => destruct x; try reflexivity
           end.
    f_equal. rewrite (IH fuel2 (bufIdx + 8)%nat) by lia. reflexivity.
Qed.

(** Six whole frames answer the request with [expectedMessageCount = 6]. *)
Lemma read_bus_data_daly_six (command : Z) (frames : list CellFrame)
    (rest : list (list byte)) (w : World) :
  pending (bus w) = map wire frames ++ rest ->
  length frames = 6%nat ->
  read_bus_data_daly (Some TheBus) command 6 w =
    Ret (concat (map wire frames))
      (with_bus {| sent := sent (bus w) ++ [command]; pending := rest |} w).
Proof.
  intros E L.
  do 6 (destruct frames as [|? frames]; [discriminate L|]).
  destruct frames; [|discriminate L].
  unfold read_bus_data_daly. rewrite E. reflexivity.
Qed.

(** C7 as stated fails where the cell list is re-created: when its length
    differs from [cell_count] (here four cells, then a count of five) the
    list is replaced by fresh cells before the frames are read, so cell 3,
    which no frame covers, loses the voltage it had. *)
Lemma read_cells_volts_recreates_cells :
  let w := world_of (set_cells four_cells (set_cell_count (Some 5) daly0))
             (map wire cell_frames_gap) in
  let o := read_cells_volts utils0 (Some TheBus) w in
  returned o = Some true /\
  Forall (fun fr => covers fr 3 = None) cell_frames_gap /\
  Cell.voltage <$> cells (self w) !! 3%nat = Some (Some 3.3%float) /\
  Cell.voltage <$> cells (self (final o)) !! 3%nat = Some None.
Proof.
  cbv zeta. split; [|split; [|split]].
  - vm_compute. reflexivity.
  - repeat first [apply Forall_nil_2 | apply Forall_cons_2; [reflexivity|]].
  - vm_compute. reflexivity.
  - vm_compute. reflexivity.
Qed.

(** C7, amended.  With [cell_count = n > 0] and six whole frames of index
    at least 1 on the bus, [read_cells_volts] returns [True] and leaves a
    list of exactly [n] cells, so no index [>= n] is written.  Each cell
    [i < n] keeps its [balance]; its voltage is the reading of the last
    frame [f] with [i = (f - 1) * 3 + offset], [offset] in 0, 1, 2: [None]
    when mV/1000 is below [MIN_CELL_VOLTAGE / 2], else mV/1000.  A cell no
    frame covers keeps the voltage it had before the frames were read:
    its previous voltage when the list already had [n] cells; when it did
    not, the list is first re-created and the cell starts as a fresh
    [Cell(True)]. *)
Theorem read_cells_volts_writes (utils : Utils) (w : World) (n : Z)
    (frames : list CellFrame) (rest : list (list byte)) :
  cell_count (self w) = Some n ->
  0 < n ->
  pending (bus w) = map wire frames ++ rest ->
  length frames = 6%nat ->
  Forall (fun fr => 1 <= frame_index fr) frames ->
  let before :=
    if Z.of_nat (length (cells (self w))) =? n then cells (self w)
    else replicate (Z.to_nat n) (Cell.new true) in
  exists w',
    read_cells_volts utils (Some TheBus) w = Ret true w' /\
    length (cells (self w')) = Z.to_nat n /\
    forall (i : nat) (c : Cell.t),
      before !! i = Some c ->
      exists c',
        cells (self w') !! i = Some c' /\
        Cell.balance c' = Cell.balance c /\
        Cell.voltage c' =
          match last_covering frames (Z.of_nat i) with
          | Some mv => reading utils mv
          | None => Cell.voltage c
          end.
Proof.
  intros C N E L F before.
  assert (Lb : Z.of_nat (length before) = n).
  { subst before. destruct (Z.eqb_spec (Z.of_nat (length (cells (self w)))) n) as [H|H];
      [exact H|]. rewrite length_replicate. lia. }
  exists (with_self
            (set_cells (write_frames utils n frames before) (self w))
            (with_bus {| sent := sent (bus w) ++ [command_cell_volts (self w)];
                         pending := rest |}
               (with_calls (calls w ++ [Call_read_cells_volts]) w))).
  split; [|split].
  - unfold read_cells_volts. do 2 pure_step. cbn [self with_calls]. rewrite C.
    pure_step.
    erewrite bind_Ret by (apply read_bus_data_daly_six; [exact E | exact L]).
    cbn [is_False]. pure_step. cbn [self with_bus with_calls].
    fold (lowMin utils).
    subst before.
    destruct (Z.of_nat (length (cells (self w))) =? n) eqn:Q.
    + pure_step.
      erewrite bind_Ret
        by (apply (read_frames_writes_buffer utils n);
            [ exact C | now apply Z.eqb_eq in Q | exact F ]).
      reflexivity.
    + pure_step.
      erewrite bind_Ret
        by (apply (read_frames_writes_buffer utils n);
            [ exact C | exact Lb | exact F ]).
      reflexivity.
  - cbn [self with_self cells set_cells]. rewrite write_frames_length. lia.
  - intros i c Hi. cbn [self with_self cells set_cells].
    assert (I : Z.of_nat i < n).
    { apply lookup_lt_Some in Hi. lia. }
    rewrite (write_frames_lookup utils n frames before i c F I Hi).
    eexists. split; [reflexivity|]. split; [apply update_cells_balance|].
    unfold last_covering. now apply update_cells_voltage.
Qed.

Lemma read_cells_volts_writes_witness :
  let w := world_of (set_cells four_cells (set_cell_count (Some 4) daly0))
             (map wire cell_frames_gap) in
  exists w',
    read_cells_volts utils0 (Some TheBus) w = Ret true w' /\
    length (cells (self w')) = Z.to_nat 4 /\
    forall (i : nat) (c : Cell.t),
      four_cells !! i = Some c ->
      exists c',
        cells (self w') !! i = Some c' /\
        Cell.balance c' = Cell.balance c /\
        Cell.voltage c' =
          match last_covering cell_frames_gap (Z.of_nat i) with
          | Some mv => reading utils0 mv
          | None => Cell.voltage c
          end.
Proof.
  apply (read_cells_volts_writes utils0
           (world_of (set_cells four_cells (set_cell_count (Some 4) daly0))
              (map wire cell_frames_gap))
           4 cell_frames_gap []);
    [ reflexivity | lia | reflexivity | reflexivity
    | repeat first [apply Forall_nil_2 | apply Forall_cons_2; [vm_compute; discriminate|]] ].
Defined.

(** What the characterisation in C7 says cell by cell. *)

(** Frame [f] holds the readings of the cells [(f - 1) * 3 + offset]. *)
Lemma covers_offsets (fr : CellFrame) :
  let k := (frame_index fr - 1) * 3 in
  covers fr (k + 0) = Some (int_be [cf_hi0 fr; cf_lo0 fr]) /\
  covers fr (k + 1) = Some (int_be [cf_hi1 fr; cf_lo1 fr]) /\
  covers fr (k + 2) = Some (int_be [cf_hi2 fr; cf_lo2 fr]) /\
  forall i, i < k \/ k + 2 < i -> covers fr i = None.
Proof.
  cbv zeta. unfold covers. repeat split.
  - now replace (_ + 0 - _) with 0 by lia.
  - now replace (_ + 1 - _) with 1 by lia.
  - now replace (_ + 2 - _) with 2 by lia.
  - intros i H.
    repeat match goal with
           | |- context [?a =? ?b] => destruct (Z.eqb_spec a b); try lia
           end. reflexivity.
Qed.

(** A cell no frame covers has no last reading, so it keeps its voltage. *)
Lemma last_covering_uncovered (frames : list CellFrame) (i : Z) :
  Forall (fun fr => covers fr i = None) frames -> last_covering frames i = None.
Proof.
  unfold last_covering. induction 1 as [|fr frames H _ IH]; [reflexivity|].
  cbn [fold_left]. now rewrite H.
Qed.

(** A later frame covering the same cell replaces the reading. *)
Lemma last_covering_last (frames : list CellFrame) (fr : CellFrame) (i mv : Z) :
  covers fr i = Some mv -> last_covering (frames ++ [fr]) i = Some mv.
Proof.
  intros H. unfold last_covering. rewrite fold_left_app. cbn [fold_left].
  now rewrite H.
Qed.

(** Comparisons of binary64 numbers: [y <= x] excludes [x < y]. *)
Lemma SFcompare_antisym (a b : SpecFloat.spec_float) (c : comparison) :
  SpecFloat.SFcompare a b = Some c -> SpecFloat.SFcompare b a = Some (CompOpp c).
Proof.
  destruct a as [sa|sa| |sa ma ea], b as [sb|sb| |sb mb eb]; cbn;
    try discriminate; intros [= <-]; try reflexivity;
    try (destruct sa; reflexivity); try (destruct sb; reflexivity);
    try (destruct sa, sb; reflexivity).
  destruct sa, sb; try reflexivity; f_equal;
    rewrite (Z.compare_antisym ea eb);
    destruct (ea ?= eb)%Z; cbn; try reflexivity;
    rewrite (Pos.compare_cont_antisym ma mb Eq); cbn;
    now rewrite ?CompOpp_involutive.
Qed.

Lemma leb_not_ltb (x y : float) : (y <=? x)%float = true -> (x <? y)%float = false.
Proof.
  rewrite FloatAxioms.leb_spec, FloatAxioms.ltb_spec. unfold SpecFloat.SFleb, SpecFloat.SFltb.
  destruct (SpecFloat.SFcompare (Prim2SF y) (Prim2SF x)) as [c|] eqn:E; [|discriminate].
  apply SFcompare_antisym in E. rewrite E. now destruct c.
Qed.

(** Strictly below [MIN_CELL_VOLTAGE / 2]: unknown.  At or above: stored. *)
Lemma reading_below (utils : Utils) (mv : Z) :
  (truediv mv 1000 <? lowMin utils)%float = true -> reading utils mv = None.
Proof. intros H. unfold reading. now rewrite H. Qed.

Lemma reading_at_or_above (utils : Utils) (mv : Z) :
  (lowMin utils <=? truediv mv 1000)%float = true ->
  reading utils mv = Some (truediv mv 1000).
Proof. intros H. unfold reading. now rewrite (leb_not_ltb _ _ H). Qed.

(** With [MIN_CELL_VOLTAGE = 2.9] the threshold is 1.45 V. *)
Example reading_at_threshold :
  reading utils0 1449 = None /\ reading utils0 1450 = Some 1.45%float.
Proof. vm_compute. now split. Qed.

(** Outside C7 as amended: a frame of index 0 gives the cell numbers -3, -2
    and -1, which as list indices count from the end of the list. *)
Example read_cells_volts_frame_zero :
  let fr0 := [x00; x0c; xe4; x0c; xe4; x0c; xe4; x00] in
  let w := world_of (set_cells (replicate 4 (Cell.new true))
                       (set_cell_count (Some 4) daly0))
             [fr0; []; []; []; []; []] in
  let o := read_cells_volts utils0 (Some TheBus) w in
  returned o = Some true /\
  Cell.voltage <$> cells (self (final o))
  = [None; Some 3.3%float; Some 3.3%float; Some 3.3%float].
Proof. vm_compute. now split. Qed.

(** * Further properties of the driver *)

(** ** Ranges of the wire fields *)

Lemma int_be_1_range (b : byte) : -128 <= int_be [b] <= 127.
Proof. destruct b; vm_compute; split; discriminate. Qed.

Lemma int_be_2_range (hi lo : byte) : -32768 <= int_be [hi; lo] <= 32767.
Proof.
  pose proof (byte_val_range hi). pose proof (byte_val_range lo).
  unfold int_be, uint_be. cbn [fold_left length].
  change (2 ^ (8 * Z.of_nat 2 - 1)) with 32768.
  change (2 ^ (8 * Z.of_nat 2)) with 65536.
  destruct (Z.ltb_spec ((0 * 256 + byte_val hi) * 256 + byte_val lo) 32768); lia.
Qed.

(** ** The single-frame decoders on a whole frame *)

(** A status frame of at least 8 bytes with a non-zero count byte:
    [read_status_data] returns [True], stores the signed count bytes, the
    two flags and the cycle count, names the hardware after the cell count,
    and touches nothing else. *)
Theorem read_status_data_decodes (w : World)
    (b0 b1 b2 b3 b4 b5 b6 b7 : byte) (tl : list byte) (rest : list (list byte)) :
  pending (bus w) = (b0 :: b1 :: b2 :: b3 :: b4 :: b5 :: b6 :: b7 :: tl) :: rest ->
  int_be [b0] <> 0 ->
  read_status_data (Some TheBus) w =
    Ret true
      (with_self
         (set_hardware_version (Some ("DalyBMS " ++ str (int_be [b0]) ++ "S")%string)
            (set_history {| History.charge_cycles := Some (int_be [b5; b6]) |}
               (set_load_connected (Some (negb (uint_be [b3] =? 0)))
                  (set_charger_connected (Some (negb (uint_be [b2] =? 0)))
                     (set_temp_sensors (Some (int_be [b1]))
                        (set_cell_count (Some (int_be [b0])) (self w)))))))
         (with_bus {| sent := sent (bus w) ++ [command_status (self w)];
                      pending := rest |}
            (with_calls (calls w ++ [Call_read_status_data]) w))).
Proof.
  intros E N. unfold read_status_data. do 2 pure_step. bus_step. cbn [is_False].
  change (unpack_from ">bb??bhx" _ 0)
    with (Ok [VInt (int_be [b0]); VInt (int_be [b1]);
              VBool (negb (uint_be [b2] =? 0)); VBool (negb (uint_be [b3] =? 0));
              VInt (int_be [b4]); VInt (int_be [b5; b6])]).
  cbv beta iota. do 5 pure_step.
  apply Z.eqb_neq in N. rewrite N. reflexivity.
Qed.

Lemma read_status_data_decodes_witness :
  read_status_data (Some TheBus) (world_of daly0 [status_frame]) =
    Ret true
      (with_self
         (set_hardware_version (Some "DalyBMS 16S"%string)
            (set_history {| History.charge_cycles := Some 100 |}
               (set_load_connected (Some true)
                  (set_charger_connected (Some false)
                     (set_temp_sensors (Some 2)
                        (set_cell_count (Some 16) daly0))))))
         (with_bus {| sent := [command_status daly0]; pending := [] |}
            (with_calls [Call_read_status_data] (world_of daly0 [status_frame])))).
Proof.
  apply (read_status_data_decodes (world_of daly0 [status_frame])
           x10 x02 x00 x01 x00 x00 x64 x00 [] []); [reflexivity | discriminate].
Defined.

(** A status frame whose count byte is 0: [read_status_data] returns
    [False], but the tuple assignment has already been made, so
    [cell_count] is now 0 and the sensor count, the flags and the cycle
    count are overwritten; only [hardware_version] keeps its value. *)
Theorem read_status_data_zero_count (w : World)
    (b0 b1 b2 b3 b4 b5 b6 b7 : byte) (tl : list byte) (rest : list (list byte)) :
  pending (bus w) = (b0 :: b1 :: b2 :: b3 :: b4 :: b5 :: b6 :: b7 :: tl) :: rest ->
  int_be [b0] = 0 ->
  read_status_data (Some TheBus) w =
    Ret false
      (with_self
         (set_history {| History.charge_cycles := Some (int_be [b5; b6]) |}
            (set_load_connected (Some (negb (uint_be [b3] =? 0)))
               (set_charger_connected (Some (negb (uint_be [b2] =? 0)))
                  (set_temp_sensors (Some (int_be [b1]))
                     (set_cell_count (Some 0) (self w))))))
         (with_bus {| sent := sent (bus w) ++ [command_status (self w)];
                      pending := rest |}
            (with_calls (calls w ++ [Call_read_status_data]) w))).
Proof.
  intros E N. unfold read_status_data. do 2 pure_step. bus_step. cbn [is_False].
  change (unpack_from ">bb??bhx" _ 0)
    with (Ok [VInt (int_be [b0]); VInt (int_be [b1]);
              VBool (negb (uint_be [b2] =? 0)); VBool (negb (uint_be [b3] =? 0));
              VInt (int_be [b4]); VInt (int_be [b5; b6])]).
  cbv beta iota. do 5 pure_step. rewrite N. reflexivity.
Qed.

Lemma read_status_data_zero_count_witness :
  let w := world_of (set_cell_count (Some 16) daly0)
             [[x00; x02; x01; x01; x00; x00; x64; x00]] in
  read_status_data (Some TheBus) w =
    Ret false
      (with_self
         (set_history {| History.charge_cycles := Some 100 |}
            (set_load_connected (Some true)
               (set_charger_connected (Some true)
                  (set_temp_sensors (Some 2)
                     (set_cell_count (Some 0) (self w))))))
         (with_bus {| sent := [command_status daly0]; pending := [] |}
            (with_calls [Call_read_status_data] w))).
Proof.
  apply (read_status_data_zero_count
           (world_of (set_cell_count (Some 16) daly0)
              [[x00; x02; x01; x01; x00; x00; x64; x00]])
           x00 x02 x01 x01 x00 x00 x64 x00 [] []); reflexivity.
Defined.

(** A FET frame of at least 8 bytes: [read_fed_data] returns [True], stores
    the two switch flags (any non-zero byte is [True]) and the remaining
    capacity, the unsigned 32-bit field of bytes 4-7 divided by 1000, and
    touches nothing else; the status byte and the cycle byte are dropped. *)
Theorem read_fed_data_decodes (w : World)
    (b0 b1 b2 b3 b4 b5 b6 b7 : byte) (tl : list byte) (rest : list (list byte)) :
  pending (bus w) = (b0 :: b1 :: b2 :: b3 :: b4 :: b5 :: b6 :: b7 :: tl) :: rest ->
  read_fed_data (Some TheBus) w =
    Ret true
      (with_self
         (set_capacity_remain (Some (truediv (uint_be [b4; b5; b6; b7]) 1000))
            (set_discharge_fet (Some (negb (uint_be [b2] =? 0)))
               (set_charge_fet (Some (negb (uint_be [b1] =? 0))) (self w))))
         (with_bus {| sent := sent (bus w) ++ [command_fet (self w)];
                      pending := rest |}
            (with_calls (calls w ++ [Call_read_fed_data]) w))).
Proof.
  intros E. unfold read_fed_data. do 2 pure_step. bus_step. cbn [is_False].
  change (unpack_from ">b??BL" _ 0)
    with (Ok [VInt (int_be [b0]); VBool (negb (uint_be [b1] =? 0));
              VBool (negb (uint_be [b2] =? 0)); VInt (uint_be [b3]);
              VInt (uint_be [b4; b5; b6; b7])]).
  reflexivity.
Qed.

Lemma read_fed_data_decodes_witness :
  read_fed_data (Some TheBus) (world_of daly0 [fet_frame]) =
    Ret true
      (with_self
         (set_capacity_remain (Some (truediv 50000 1000))
            (set_discharge_fet (Some true) (set_charge_fet (Some true) daly0)))
         (with_bus {| sent := [command_fet daly0]; pending := [] |}
            (with_calls [Call_read_fed_data] (world_of daly0 [fet_frame])))).
Proof.
  apply (read_fed_data_decodes (world_of daly0 [fet_frame])
           x01 x01 x01 x05 x00 x00 xc3 x50 [] []); reflexivity.
Defined.

(** A cell-voltage-range frame of at least 6 bytes:
    [read_cell_voltage_range_data] returns [True] and stores the two
    voltages (signed mV / 1000) and the two cell numbers, each one less
    than the signed wire byte, so between -129 and 126: a wire number 0
    becomes -1.  Nothing else is touched. *)
Theorem read_cell_voltage_range_data_decodes (w : World)
    (b0 b1 b2 b3 b4 b5 : byte) (tl : list byte) (rest : list (list byte)) :
  pending (bus w) = (b0 :: b1 :: b2 :: b3 :: b4 :: b5 :: tl) :: rest ->
  read_cell_voltage_range_data (Some TheBus) w =
    Ret true
      (with_self
         (set_cell_min_voltage (Some (truediv (int_be [b3; b4]) 1000))
            (set_cell_max_voltage (Some (truediv (int_be [b0; b1]) 1000))
               (set_cell_max_no (Some (int_be [b2] - 1))
                  (set_cell_min_no (Some (int_be [b5] - 1)) (self w)))))
         (with_bus {| sent := sent (bus w) ++ [command_minmax_cell_volts (self w)];
                      pending := rest |}
            (with_calls (calls w ++ [Call_read_cell_voltage_range_data]) w))) /\
  -129 <= int_be [b2] - 1 <= 126 /\
  -129 <= int_be [b5] - 1 <= 126.
Proof.
  intros E. split.
  - unfold read_cell_voltage_range_data. do 2 pure_step. bus_step. cbn [is_False].
    change (unpack_from ">hbhb" _ 0)
      with (Ok [VInt (int_be [b0; b1]); VInt (int_be [b2]);
                VInt (int_be [b3; b4]); VInt (int_be [b5])]).
    reflexivity.
  - pose proof (int_be_1_range b2). pose proof (int_be_1_range b5). lia.
Qed.

Lemma read_cell_voltage_range_data_decodes_witness :
  let w := world_of daly0 [range_frame] in
  read_cell_voltage_range_data (Some TheBus) w =
    Ret true
      (with_self
         (set_cell_min_voltage (Some (truediv 3200 1000))
            (set_cell_max_voltage (Some (truediv 3300 1000))
               (set_cell_max_no (Some 1) (set_cell_min_no (Some 0) daly0))))
         (with_bus {| sent := [command_minmax_cell_volts daly0]; pending := [] |}
            (with_calls [Call_read_cell_voltage_range_data] w))) /\
  -129 <= 2 - 1 <= 126 /\
  -129 <= 1 - 1 <= 126.
Proof.
  apply (read_cell_voltage_range_data_decodes (world_of daly0 [range_frame])
           x0c xe4 x02 x0c x80 x01 [x00; x00] []); reflexivity.
Defined.

(** A temperature-range frame of at least 4 bytes:
    [read_temperature_range_data] returns [True] and stores
    [temp1 = min_temp - 40] and [temp2 = max_temp - 40], where the two raw
    bytes are read as signed: the stored temperatures lie between -168 and
    87, and a raw byte of 128 or more comes out below -40.  The two sensor
    numbers are dropped and nothing else is touched. *)
Theorem read_temperature_range_data_decodes (w : World)
    (b0 b1 b2 b3 : byte) (tl : list byte) (rest : list (list byte)) :
  pending (bus w) = (b0 :: b1 :: b2 :: b3 :: tl) :: rest ->
  read_temperature_range_data (Some TheBus) w =
    Ret true
      (with_self
         (set_temp2 (Some (int_be [b0] - TEMP_ZERO_CONSTANT))
            (set_temp1 (Some (int_be [b2] - TEMP_ZERO_CONSTANT)) (self w)))
         (with_bus {| sent := sent (bus w) ++ [command_minmax_temp (self w)];
                      pending := rest |}
            (with_calls (calls w ++ [Call_read_temperature_range_data]) w))) /\
  -168 <= int_be [b0] - TEMP_ZERO_CONSTANT <= 87 /\
  -168 <= int_be [b2] - TEMP_ZERO_CONSTANT <= 87 /\
  (128 <= byte_val b0 -> int_be [b0] - TEMP_ZERO_CONSTANT < -40).
Proof.
  intros E. split; [|split; [|split]].
  - unfold read_temperature_range_data. do 2 pure_step. bus_step. cbn [is_False].
    change (unpack_from ">bbbb" _ 0)
      with (Ok [VInt (int_be [b0]); VInt (int_be [b1]);
                VInt (int_be [b2]); VInt (int_be [b3])]).
    reflexivity.
  - pose proof (int_be_1_range b0). unfold TEMP_ZERO_CONSTANT. lia.
  - pose proof (int_be_1_range b2). unfold TEMP_ZERO_CONSTANT. lia.
  - unfold TEMP_ZERO_CONSTANT. destruct b0; vm_compute; congruence.
Qed.

Lemma read_temperature_range_data_decodes_witness :
  let w := world_of daly0 [temp_frame] in
  read_temperature_range_data (Some TheBus) w =
    Ret true
      (with_self (set_temp2 (Some 20) (set_temp1 (Some 18) daly0))
         (with_bus {| sent := [command_minmax_temp daly0]; pending := [] |}
            (with_calls [Call_read_temperature_range_data] w))) /\
  -168 <= 60 - 40 <= 87 /\
  -168 <= 58 - 40 <= 87 /\
  (128 <= 60 -> 60 - 40 < -40).
Proof.
  apply (read_temperature_range_data_decodes (world_of daly0 [temp_frame])
           x3c x01 x3a x02 [x00; x00; x00; x00] []); reflexivity.
Defined.

(** ** [read_bus_data_daly]: how many frames a request takes *)

(** With a bus attached and at least [expectedMessageCount >= 1] frames
    pending, [read_bus_data_daly] logs one request, takes exactly that many
    frames off the bus, whatever their lengths, and returns their data
    joined in arrival order. *)
Theorem read_bus_data_daly_reads (command : Z) (n : nat) (w : World) :
  (1 <= n <= length (pending (bus w)))%nat ->
  read_bus_data_daly (Some TheBus) command n w =
    Ret (concat (take n (pending (bus w))))
      (with_bus {| sent := sent (bus w) ++ [command];
                   pending := drop n (pending (bus w)) |} w).
Proof.
  intros [Lo Hi]. unfold read_bus_data_daly.
  rewrite collect_counts by lia. rewrite Nat.sub_0_r.
  now apply Nat.leb_le in Hi as ->.
Qed.

Lemma read_bus_data_daly_reads_witness :
  let w := world_of daly0 [[x01; x02]; []; [x03]; [x04]] in
  read_bus_data_daly (Some TheBus) 7 3 w =
    Ret [x01; x02; x03]
      (with_bus {| sent := [7]; pending := [[x04]] |} w).
Proof.
  apply (read_bus_data_daly_reads 7 3 (world_of daly0 [[x01; x02]; []; [x03]; [x04]]));
    cbn; lia.
Defined.

(** With fewer frames pending than expected (or an expected count of 0,
    which the loop never reaches) the request is sent, the pending frames
    are used up, and the read never returns. *)
Theorem read_bus_data_daly_blocks (command : Z) (n : nat) (w : World) :
  (n = 0 \/ length (pending (bus w)) < n)%nat ->
  read_bus_data_daly (Some TheBus) command n w =
    Blocked (with_bus {| sent := sent (bus w) ++ [command]; pending := [] |} w).
Proof.
  intros H. unfold read_bus_data_daly.
  destruct (Nat.eq_dec n 0%nat) as [->|N].
  - now rewrite collect_never by lia.
  - rewrite collect_counts by lia. rewrite Nat.sub_0_r.
    destruct H as [H|H]; [lia|]. now apply Nat.leb_gt in H as ->.
Qed.

Lemma read_bus_data_daly_blocks_witness :
  let w := world_of daly0 [[x01; x02]; [x03]] in
  read_bus_data_daly (Some TheBus) 7 6 w =
    Blocked (with_bus {| sent := [7]; pending := [] |} w).
Proof.
  apply (read_bus_data_daly_blocks 7 6 (world_of daly0 [[x01; x02]; [x03]]));
    right; cbn; lia.
Defined.

(** ** [read_soc_data]: retries, requests, and what it stores *)

(** An implausible first reading followed by a plausible one:
    [read_soc_data] sends the request twice, discards the first frame and
    returns [True] with the three values of the second. *)
Theorem read_soc_data_retry (utils : Utils) (w : World)
    (v1 v2 r1 r2 c1 c2 s1 s2 : byte) (tl : list byte)
    (v1' v2' r1' r2' c1' c2' s1' s2' : byte) (tl' : list byte)
    (rest : list (list byte)) :
  pending (bus w) =
    (v1 :: v2 :: r1 :: r2 :: c1 :: c2 :: s1 :: s2 :: tl)
    :: (v1' :: v2' :: r1' :: r2' :: c1' :: c2' :: s1' :: s2' :: tl') :: rest ->
  plausible utils (physical_current utils (int_be [c1; c2])) = false ->
  plausible utils (physical_current utils (int_be [c1'; c2'])) = true ->
  exists w',
    read_soc_data utils (Some TheBus) w = Ret true w' /\
    self w' =
      set_soc (Some (truediv (int_be [s1'; s2']) 10))
        (set_current (Some (physical_current utils (int_be [c1'; c2'])))
           (set_voltage (Some (truediv (int_be [v1'; v2']) 10)) (self w))) /\
    sent (bus w') = sent (bus w) ++ [command_soc (self w); command_soc (self w)] /\
    pending (bus w') = rest.
Proof.
  intros E P1 P2.
  unfold read_soc_data. pure_step.
  change (_ * 1.3)%float with (crntMaxValid utils).
  change (- _)%float with (crntMinValid utils).
  erewrite read_soc_tries_implausible; [| exact E | exact P1].
  erewrite read_soc_tries_plausible; [| reflexivity | exact P2].
  eexists. split; [reflexivity|]. cbn.
  repeat split. now rewrite <- app_assoc.
Qed.

Lemma read_soc_data_retry_witness :
  exists w',
    read_soc_data utils0 (Some TheBus)
      (world_of daly0 [soc_frame_implausible; soc_frame_ok]) = Ret true w' /\
    self w' =
      set_soc (Some (truediv 1000 10))
        (set_current (Some (physical_current utils0 30000))
           (set_voltage (Some (truediv 532 10)) daly0)) /\
    sent (bus w') = [command_soc daly0; command_soc daly0] /\
    pending (bus w') = [].
Proof.
  apply (read_soc_data_retry utils0
           (world_of daly0 [soc_frame_implausible; soc_frame_ok])
           x02 x14 x00 x00 x00 x00 x03 xe8 []
           x02 x14 x00 x00 x75 x30 x03 xe8 [] []); reflexivity.
Defined.

(** What a returned [read_soc_tries] has done: on [True] it has stored a
    current that passed the plausibility test, on [False] it has stored
    nothing. *)
Lemma read_soc_tries_returned (utils : Utils) (ser : option BusRef) (n : nat) :
  forall (w w' : World) (r : bool),
    read_soc_tries utils n ser (crntMinValid utils) (crntMaxValid utils) w = Ret r w' ->
    if r then exists c, current (self w') = Some c /\ plausible utils c = true
    else self w' = self w.
Proof.
  induction n as [|n IH]; intros w w' r; cbn [read_soc_tries].
  - intros [= <- <-]. reflexivity.
  - erewrite bind_Ret by reflexivity.
    unfold mbind at 1, M_bind at 1.
    pose proof (preserves_read_bus_data_daly (fun w => self w) ser
                  (command_soc (self w)) 1 (fun _ _ => eq_refl) w) as S1.
    destruct (read_bus_data_daly ser (command_soc (self w)) 1 w)
      as [soc_data w1|e w1|w1]; try discriminate.
    cbn [final is_False] in *.
    destruct (unpack_from ">hhhh" soc_data 0) as [vs|e]; [|discriminate].
    destruct vs as [|[z1|?] [|[z2|?] [|[z3|?] [|[z4|?] [|? ?]]]]]; try discriminate.
    fold (physical_current utils z3).
    change (_ && _) with (plausible utils (physical_current utils z3)).
    destruct (plausible utils (physical_current utils z3)) eqn:P.
    + intros [= <- <-]. exists (physical_current utils z3). now split.
    + intros H. apply IH in H. destruct r; [exact H|]. congruence.
Qed.

(** [read_soc_data] never stores an implausible current: whenever it
    returns [True], on any bus, the stored [current] lies strictly between
    the two bounds. *)
Theorem read_soc_data_stores_plausible (utils : Utils) (ser : option BusRef)
    (w w' : World) :
  read_soc_data utils ser w = Ret true w' ->
  exists c,
    current (self w') = Some c /\
    (crntMinValid utils <? c)%float = true /\
    (c <? crntMaxValid utils)%float = true.
Proof.
  unfold read_soc_data. erewrite bind_Ret by reflexivity.
  change (_ * 1.3)%float with (crntMaxValid utils).
  change (- _)%float with (crntMinValid utils).
  intros H. apply read_soc_tries_returned in H. destruct H as (c & C & P).
  exists c. split; [exact C|]. now apply andb_true_iff in P.
Qed.

Lemma read_soc_data_stores_plausible_witness :
  exists c,
    current (self (final (read_soc_data utils0 (Some TheBus)
                            (world_of daly0 [soc_frame_implausible; soc_frame_ok]))))
    = Some c /\
    (crntMinValid utils0 <? c)%float = true /\
    (c <? crntMaxValid utils0)%float = true.
Proof.
  apply (read_soc_data_stores_plausible utils0 (Some TheBus)
           (world_of daly0 [soc_frame_implausible; soc_frame_ok])).
  vm_compute. reflexivity.
Defined.

(** A [read_soc_data] that returns [False] has stored nothing. *)
Lemma read_soc_data_false_self (utils : Utils) (ser : option BusRef) (w w' : World) :
  read_soc_data utils ser w = Ret false w' -> self w' = self w.
Proof.
  unfold read_soc_data. erewrite bind_Ret by reflexivity.
  change (_ * 1.3)%float with (crntMaxValid utils).
  change (- _)%float with (crntMinValid utils).
  intros H. now apply read_soc_tries_returned in H.
Qed.


(** ** [refresh_data]: failed reads, missing bus, silent bus *)

(** When the SOC read returns [False], [refresh_data] returns [False]
    without entering another decoder: no attribute but [poll_step] differs
    from before the call, and [poll_step] has advanced. *)
Theorem refresh_data_soc_false (utils : Utils) (w w1 : World) :
  read_soc_data utils (can_bus (self w)) w = Ret false w1 ->
  refresh_data utils w =
    Ret false
      (with_self (set_poll_step (next_step (poll_step (self w))) (self w)) w1) /\
  calls w1 = calls w ++ [Call_read_soc_data].
Proof.
  intros H. split.
  - rewrite refresh_data_stages, H. cbn [and_then mret M_ret].
    rewrite (read_soc_data_false_self _ _ _ _ H).
    assert (O : optional_read utils (poll_step (self w)) false w1 = Ret false w1).
    { unfold optional_read. destruct (optional_call _); [|reflexivity].
      now erewrite bind_Ret by reflexivity. }
    rewrite O. rewrite (read_soc_data_false_self _ _ _ _ H).
    unfold next_step. now destruct (poll_step (self w) =? 3).
  - pose proof (decoder_control utils Call_read_soc_data (can_bus (self w)) w) as C.
    cbn [decoder] in C. rewrite H in C. cbn [final] in C. now injection C.
Qed.

Lemma refresh_data_soc_false_witness :
  let w := world_of daly0 [soc_frame_implausible; soc_frame_implausible; fet_frame] in
  let w1 := final (read_soc_data utils0 (Some TheBus) w) in
  refresh_data utils0 w =
    Ret false (with_self (set_poll_step (next_step 0) daly0) w1) /\
  calls w1 = [Call_read_soc_data].
Proof.
  apply (refresh_data_soc_false utils0
           (world_of daly0 [soc_frame_implausible; soc_frame_implausible; fet_frame])).
  vm_compute. reflexivity.
Defined.

(** On an object whose [can_bus] is [None], as the constructor leaves it,
    [refresh_data] raises [AttributeError] at the first request: nothing is
    sent, no attribute changes, [poll_step] stays. *)
Theorem refresh_data_no_bus (utils : Utils) (w : World) :
  can_bus (self w) = None ->
  refresh_data utils w =
    Raise AttributeError (with_calls (calls w ++ [Call_read_soc_data]) w).
Proof.
  intros H. rewrite refresh_data_stages, H. now rewrite read_soc_data_None.
Qed.

Lemma refresh_data_no_bus_witness :
  let w := world_of (new_Daly_Can None) [soc_frame_ok; fet_frame; range_frame] in
  refresh_data utils0 w = Raise AttributeError (with_calls [Call_read_soc_data] w).
Proof.
  apply (refresh_data_no_bus utils0
           (world_of (new_Daly_Can None) [soc_frame_ok; fet_frame; range_frame])).
  reflexivity.
Defined.

(** On a bus that delivers no frame [refresh_data] sends the SOC request
    and then waits for ever: it neither returns nor raises, no attribute
    changes, and no further request is sent. *)
Theorem refresh_data_silent_bus (utils : Utils) (w : World) :
  can_bus (self w) = Some TheBus ->
  pending (bus w) = [] ->
  refresh_data utils w =
    Blocked
      (with_bus {| sent := sent (bus w) ++ [command_soc (self w)]; pending := [] |}
         (with_calls (calls w ++ [Call_read_soc_data]) w)).
Proof.
  intros B P. rewrite refresh_data_stages, B.
  assert (S1 : read_soc_data utils (Some TheBus) w =
               Blocked
                 (with_bus {| sent := sent (bus w) ++ [command_soc (self w)];
                              pending := [] |}
                    (with_calls (calls w ++ [Call_read_soc_data]) w))).
  { unfold read_soc_data. pure_step. cbn [read_soc_tries]. pure_step.
    apply bind_Blocked.
    apply (read_bus_data_daly_starved (command_soc (self w)) 1
             (with_calls (calls w ++ [Call_read_soc_data]) w)).
    right. cbn. rewrite P. cbn. lia. }
  now rewrite S1.
Qed.

Lemma refresh_data_silent_bus_witness :
  let w := world_of daly0 [] in
  refresh_data utils0 w =
    Blocked
      (with_bus {| sent := [command_soc daly0]; pending := [] |}
         (with_calls [Call_read_soc_data] w)).
Proof.
  apply (refresh_data_silent_bus utils0 (world_of daly0 [])); reflexivity.
Defined.

(** ** Cycles in a row *)

Lemma next_step_range (p : Z) : 0 <= p <= 3 -> 0 <= next_step p <= 3.
Proof. unfold next_step. destruct (Z.eqb_spec p 3); lia. Qed.

Lemma next_step_mod (p n : Z) :
  0 <= p <= 3 -> (next_step p + n) mod 4 = (p + (n + 1)) mod 4.
Proof.
  intros R. unfold next_step. destruct (Z.eqb_spec p 3) as [->|N].
  - replace (3 + (n + 1)) with (n + 1 * 4) by lia.
    now rewrite Z_mod_plus_full.
  - f_equal. lia.
Qed.

(** Any number of invocations in a row that return, with [True] or with
    [False]: from a step in 0..3, after [n] of them [poll_step] is the
    start step plus [n] modulo 4, and [error_active] is as it was. *)
Theorem cycles_poll_step (utils : Utils) (n : nat) :
  forall w w' : World,
    0 <= poll_step (self w) <= 3 ->
    cycles utils n w = Some w' ->
    poll_step (self w') = (poll_step (self w) + Z.of_nat n) mod 4 /\
    error_active (self w') = error_active (self w).
Proof.
  induction n as [|n IH]; intros w w' R; cbn [cycles].
  - intros [= <-]. rewrite Z.add_0_r. split; [|reflexivity].
    symmetry. apply Z.mod_small. lia.
  - pose proof (refresh_data_poll_step utils w) as P.
    pose proof (refresh_data_error_active utils w) as A.
    destruct (refresh_data utils w) as [r w1| |]; try discriminate.
    cbn [final] in P, A. fold (next_step (poll_step (self w))) in P.
    intros H. apply IH in H; [|rewrite P; now apply next_step_range].
    destruct H as [H1 H2]. rewrite H1, H2, P, A. split; [|reflexivity].
    rewrite next_step_mod by exact R. f_equal. lia.
Qed.

Lemma cycles_poll_step_witness :
  poll_step (self cycle_world4) = (poll_step (self cycle_world0) + Z.of_nat 4) mod 4 /\
  error_active (self cycle_world4) = error_active (self cycle_world0).
Proof.
  apply (cycles_poll_step utils0 4 cycle_world0 cycle_world4);
    [vm_compute; split; discriminate | vm_compute; reflexivity].
Defined.

(** ** [read_daly_can] and [test_connection] *)

Lemma read_cache_items_run (items : list (Z * list byte)) :
  forall (data_check : Z) (w : World),
    read_cache_items items data_check w =
      if existsb (fun item => is_status_id (self w) (fst item)) items
      then Raise StructError w
      else Ret data_check w.
Proof.
  induction items as [|[frame_id data] rest IH]; intros data_check w;
    cbn [read_cache_items existsb fst]; [reflexivity|].
  pure_step.
  change (getitem CAN_FRAMES COMMAND_STATUS) with (Ok [0x18940140]).
  cbn [existsb]. rewrite orb_false_r. unfold is_status_id at 1.
  destruct (frame_id + device_address (self w) =? 0x18940140).
  - rewrite cache_format_rejected. reflexivity.
  - cbn [orb]. apply IH.
Qed.

Lemma read_daly_can_run (w : World) :
  read_daly_can w =
    if holds_status_frame w then Raise StructError (after_latch w)
    else Ret false (after_latch w).
Proof.
  unfold read_daly_can, holds_status_frame, after_latch.
  set (e := existsb _ (can_message_cache w)).
  do 3 pure_step.
  destruct (_ && _); pure_step; pure_step;
    unfold mbind, M_bind; rewrite read_cache_items_run;
    change (existsb _ _) with e; destruct e; reflexivity.
Qed.

(** [read_daly_can] never returns [True] and never stores a decoded value.
    When the cache holds a frame under the status id the format
    [>BB??BHX] makes [unpack_from] raise; when it holds none, [data_check]
    stays 0 and the result is [False].  Either way the object is as the
    latch test left it. *)
Theorem read_daly_can_never_decodes (w : World) :
  returned (read_daly_can w) <> Some true /\
  final (read_daly_can w) = after_latch w /\
  (raised (read_daly_can w) = Some StructError <-> holds_status_frame w = true) /\
  (returned (read_daly_can w) = Some false <-> holds_status_frame w = false).
Proof.
  rewrite read_daly_can_run.
  destruct (holds_status_frame w); cbn; repeat split; congruence.
Qed.

(** [test_connection] returns [False] in every world: with an empty cache
    at once, otherwise because [read_daly_can] returns [False] or raises,
    which the handler turns into [False].  It has set [capacity] by then. *)
Theorem test_connection_fails (utils : Utils) (w : World) :
  let w1 := with_self (set_capacity (Some (BATTERY_CAPACITY utils)) (self w)) w in
  test_connection utils w =
    Ret false
      (match can_message_cache w with
       | [] => w1
       | _ :: _ => after_latch w1
       end).
Proof.
  cbv zeta. unfold test_connection, try_except.
  do 2 (erewrite bind_Ret by reflexivity).
  destruct (can_message_cache w) as [|item items] eqn:C; cbn [can_message_cache with_self].
  - rewrite C. reflexivity.
  - rewrite C. cbn [and_then]. rewrite read_daly_can_run.
    now destruct (holds_status_frame _).
Qed.

(** The id of the status reply itself, [RESPONSE_STATUS], is not the one
    the cache read looks for. *)
Example read_daly_can_ignores_response_id :
  let w := {| self := daly0; bus := {| sent := []; pending := [] |};
              can_message_cache := [(0x18944001, status_frame)];
              clock := 0; calls := [] |} in
  read_daly_can w = Ret false w.
Proof. reflexivity. Qed.

(** ** [read_cells_volts]: frame index 0, broken buffers, short answers *)

Lemma set_cell_voltage_from_end (cellnum : Z) (v : option float) (w : World) :
  - Z.of_nat (length (cells (self w))) <= cellnum < 0 ->
  set_cell_voltage cellnum v w =
    Ret tt (with_self
              (set_cells
                 (alter (Cell.set_voltage v)
                    (Z.to_nat (Z.of_nat (length (cells (self w))) + cellnum))
                    (cells (self w))) (self w)) w).
Proof.
  intros R. unfold set_cell_voltage. pure_step. unfold list_index.
  replace (0 <=? cellnum) with false by (symmetry; apply Z.leb_gt; lia).
  replace (0 <=? _ + cellnum) with true by (symmetry; apply Z.leb_le; lia).
  reflexivity.
Qed.

Lemma set_cell_voltage_out_of_range (cellnum : Z) (v : option float) (w : World) :
  cellnum < - Z.of_nat (length (cells (self w))) ->
  set_cell_voltage cellnum v w = Raise IndexError w.
Proof.
  intros R. unfold set_cell_voltage. pure_step. unfold list_index.
  replace (0 <=? cellnum) with false by (symmetry; apply Z.leb_gt; lia).
  replace (0 <=? _ + cellnum) with false by (symmetry; apply Z.leb_gt; lia).
  reflexivity.
Qed.

(** The [for idx] loop on a frame of index 0, in a list of at least three
    cells: the cell numbers -3, -2, -1 address the last three cells. *)
Lemma store_frame_zero (utils : Utils) (n a b c : Z) (w : World) :
  cell_count (self w) = Some n ->
  Z.of_nat (length (cells (self w))) = n ->
  3 <= n ->
  store_frame 0 (lowMin utils) [(0, a); (1, b); (2, c)] w =
    Ret tt
      (with_self
         (set_cells
            (alter (Cell.set_voltage (reading utils c)) (Z.to_nat (n - 1))
               (alter (Cell.set_voltage (reading utils b)) (Z.to_nat (n - 2))
                  (alter (Cell.set_voltage (reading utils a)) (Z.to_nat (n - 3))
                     (cells (self w)))))
            (self w)) w).
Proof.
  intros C L N. cbn [store_frame].
  change ((0 - 1) * 3 + 0) with (-3). change ((0 - 1) * 3 + 1) with (-2).
  change ((0 - 1) * 3 + 2) with (-1).
  pure_step. rewrite C.
  replace (-3 >=? n) with false by (symmetry; rewrite Z.geb_leb; apply Z.leb_gt; lia).
  erewrite bind_Ret by (apply set_cell_voltage_from_end; lia).
  pure_step. cbn [self with_self cell_count set_cells]. rewrite C.
  replace (-2 >=? n) with false by (symmetry; rewrite Z.geb_leb; apply Z.leb_gt; lia).
  erewrite bind_Ret
    by (apply set_cell_voltage_from_end; cbn [self with_self cells set_cells];
        rewrite length_alter; lia).
  pure_step. cbn [self with_self cell_count set_cells]. rewrite C.
  replace (-1 >=? n) with false by (symmetry; rewrite Z.geb_leb; apply Z.leb_gt; lia).
  erewrite bind_Ret
    by (apply set_cell_voltage_from_end; cbn [self with_self cells set_cells];
        rewrite !length_alter; lia).
  cbn [self with_self cells set_cells]. rewrite !length_alter, L.
  replace (n + -3) with (n - 3) by lia. replace (n + -2) with (n - 2) by lia.
  replace (n + -1) with (n - 1) by lia.
  reflexivity.
Qed.

Lemma read_frames_frame_zero (utils : Utils) (n : Z) (fr : CellFrame) (w : World) :
  cell_count (self w) = Some n ->
  Z.of_nat (length (cells (self w))) = n ->
  3 <= n ->
  frame_index fr = 0 ->
  read_frames (length (wire fr)) (wire fr) (lowMin utils) 0 w =
    Ret tt
      (with_self
         (set_cells
            (alter (Cell.set_voltage (reading utils (int_be [cf_hi2 fr; cf_lo2 fr])))
               (Z.to_nat (n - 1))
               (alter (Cell.set_voltage (reading utils (int_be [cf_hi1 fr; cf_lo1 fr])))
                  (Z.to_nat (n - 2))
                  (alter (Cell.set_voltage
                            (reading utils (int_be [cf_hi0 fr; cf_lo0 fr])))
                     (Z.to_nat (n - 3)) (cells (self w)))))
            (self w)) w).
Proof.
  intros C L N F.
  change (length (wire fr)) with 8%nat. cbn [read_frames].
  change (length (wire fr)) with 8%nat. cbn [Nat.ltb Nat.leb].
  pose proof (unpack_from_cell_frame [] fr []) as U.
  change ([] ++ wire fr ++ []) with (wire fr) in U.
  change (length (@nil byte)) with 0%nat in U. rewrite U, F.
  erewrite bind_Ret by (apply (store_frame_zero utils n); [exact C | exact L | exact N]).
  reflexivity.
Qed.

(** A frame of index 0 is not rejected: with [cell_count = n >= 3] and a
    list of [n] cells, its three readings are written to the LAST three
    cells, [n - 3], [n - 2] and [n - 1], and the call returns [True]. *)
Theorem read_cells_volts_frame_zero_wraps (utils : Utils) (w : World) (n : Z)
    (fr : CellFrame) :
  cell_count (self w) = Some n ->
  Z.of_nat (length (cells (self w))) = n ->
  3 <= n ->
  (6 <= length (pending (bus w)))%nat ->
  concat (take 6 (pending (bus w))) = wire fr ->
  frame_index fr = 0 ->
  exists w',
    read_cells_volts utils (Some TheBus) w = Ret true w' /\
    cells (self w') =
      alter (Cell.set_voltage (reading utils (int_be [cf_hi2 fr; cf_lo2 fr])))
        (Z.to_nat (n - 1))
        (alter (Cell.set_voltage (reading utils (int_be [cf_hi1 fr; cf_lo1 fr])))
           (Z.to_nat (n - 2))
           (alter (Cell.set_voltage (reading utils (int_be [cf_hi0 fr; cf_lo0 fr])))
              (Z.to_nat (n - 3)) (cells (self w)))).
Proof.
  intros C L N P B F.
  unfold read_cells_volts. do 2 pure_step. cbn [self with_calls]. rewrite C.
  pure_step.
  erewrite bind_Ret by (apply read_bus_data_daly_take; cbn; lia).
  cbn [is_False bus with_calls]. rewrite B. pure_step.
  cbn [self with_bus with_calls]. fold (lowMin utils).
  apply Z.eqb_eq in L as L'. rewrite L'. pure_step.
  erewrite bind_Ret
    by (apply (read_frames_frame_zero utils n); [exact C | exact L | exact N | exact F]).
  eexists. split; reflexivity.
Qed.

Lemma read_cells_volts_frame_zero_wraps_witness :
  let w := world_of (set_cells four_cells (set_cell_count (Some 4) daly0))
             [wire cell_frame_zero; []; []; []; []; []] in
  exists w',
    read_cells_volts utils0 (Some TheBus) w = Ret true w' /\
    cells (self w') =
      alter (Cell.set_voltage (reading utils0 3302)) (Z.to_nat (4 - 1))
        (alter (Cell.set_voltage (reading utils0 3301)) (Z.to_nat (4 - 2))
           (alter (Cell.set_voltage (reading utils0 3300)) (Z.to_nat (4 - 3))
              four_cells)).
Proof.
  apply (read_cells_volts_frame_zero_wraps utils0
           (world_of (set_cells four_cells (set_cell_count (Some 4) daly0))
              [wire cell_frame_zero; []; []; []; []; []])
           4 cell_frame_zero);
    [reflexivity | reflexivity | lia | cbn; lia | reflexivity | reflexivity].
Defined.

Lemma read_frames_frame_zero_small (utils : Utils) (n : Z) (fr : CellFrame)
    (w : World) :
  cell_count (self w) = Some n ->
  (length (cells (self w)) < 3)%nat ->
  -3 < n ->
  frame_index fr = 0 ->
  read_frames (length (wire fr)) (wire fr) (lowMin utils) 0 w = Raise IndexError w.
Proof.
  intros C L N F.
  change (length (wire fr)) with 8%nat. cbn [read_frames].
  change (length (wire fr)) with 8%nat. cbn [Nat.ltb Nat.leb].
  pose proof (unpack_from_cell_frame [] fr []) as U.
  change ([] ++ wire fr ++ []) with (wire fr) in U.
  change (length (@nil byte)) with 0%nat in U. rewrite U, F.
  apply bind_Raise. cbn [store_frame]. change ((0 - 1) * 3 + 0) with (-3).
  pure_step. rewrite C.
  replace (-3 >=? n) with false by (symmetry; rewrite Z.geb_leb; apply Z.leb_gt; lia).
  apply bind_Raise. apply set_cell_voltage_out_of_range. lia.
Qed.

(** With fewer than three cells ([-3 < cell_count < 3]) a frame of index 0
    makes [read_cells_volts] raise [IndexError]: cell number -3 is before
    the start of the list.  The list has [cell_count] cells by then, none
    for a negative count. *)
Theorem read_cells_volts_frame_zero_raises (utils : Utils) (w : World) (n : Z)
    (fr : CellFrame) :
  cell_count (self w) = Some n ->
  -3 < n < 3 ->
  (6 <= length (pending (bus w)))%nat ->
  concat (take 6 (pending (bus w))) = wire fr ->
  frame_index fr = 0 ->
  exists w',
    read_cells_volts utils (Some TheBus) w = Raise IndexError w' /\
    length (cells (self w')) = Z.to_nat n.
Proof.
  intros C N P B F.
  unfold read_cells_volts. do 2 pure_step. cbn [self with_calls]. rewrite C.
  pure_step.
  erewrite bind_Ret by (apply read_bus_data_daly_take; cbn; lia).
  cbn [is_False bus with_calls]. rewrite B. pure_step.
  cbn [self with_bus with_calls]. fold (lowMin utils).
  destruct (Z.eqb_spec (Z.of_nat (length (cells (self w)))) n) as [L|L].
  - pure_step.
    erewrite bind_Raise
      by (apply (read_frames_frame_zero_small utils n);
          [exact C | cbn; lia | lia | exact F]).
    eexists. split; [reflexivity|]. cbn. lia.
  - pure_step.
    erewrite bind_Raise
      by (apply (read_frames_frame_zero_small utils n);
          [exact C | cbn; rewrite length_replicate; lia | lia | exact F]).
    eexists. split; [reflexivity|]. cbn. now rewrite length_replicate.
Qed.

Lemma read_cells_volts_frame_zero_raises_witness :
  let w := world_of (set_cell_count (Some 2) daly0)
             [wire cell_frame_zero; []; []; []; []; []] in
  exists w',
    read_cells_volts utils0 (Some TheBus) w = Raise IndexError w' /\
    length (cells (self w')) = Z.to_nat 2.
Proof.
  apply (read_cells_volts_frame_zero_raises utils0
           (world_of (set_cell_count (Some 2) daly0)
              [wire cell_frame_zero; []; []; []; []; []])
           2 cell_frame_zero);
    [reflexivity | lia | cbn; lia | reflexivity | reflexivity].
Defined.

(** Whole frames followed by 1 to 6 stray bytes: the whole frames are
    decoded and written, then [unpack_from] fails on the rest. *)
Lemma read_frames_writes_then_raises (utils : Utils) (n : Z)
    (frames : list CellFrame) (tail : list byte) :
  forall (pre : list byte) (fuel : nat) (w : World),
    cell_count (self w) = Some n ->
    Z.of_nat (length (cells (self w))) = n ->
    Forall (fun fr => 1 <= frame_index fr) frames ->
    (0 < length tail < 7)%nat ->
    (length frames < fuel)%nat ->
    read_frames fuel (pre ++ concat (map wire frames) ++ tail) (lowMin utils)
      (length pre) w =
      Raise StructError
        (with_self
           (set_cells (write_frames utils n frames (cells (self w))) (self w)) w).
Proof.
  induction frames as [|fr frames IH]; intros pre fuel w C L F T Fu.
  - cbn [map concat write_frames fold_left app].
    destruct fuel as [|fuel]; [cbn in Fu; lia|]. cbn [read_frames].
    replace (length pre <? length (pre ++ tail))%nat
      with true by (symmetry; apply Nat.ltb_lt; rewrite length_app; lia).
    erewrite unpack_from_short; [| reflexivity | rewrite length_app; cbn; lia].
    now rewrite set_cells_cells, with_self_self.
  - apply Forall_cons in F as [F1 F].
    destruct fuel as [|fuel]; [cbn in Fu; lia|].
    cbn [map concat read_frames]. rewrite <- (app_assoc (wire fr)).
    replace (length pre <?
             length (pre ++ wire fr ++ concat (map wire frames) ++ tail))%nat
      with true by (symmetry; apply Nat.ltb_lt; rewrite !length_app; cbn; lia).
    rewrite unpack_from_cell_frame.
    erewrite bind_Ret
      by (apply (store_frame_writes utils n); [exact C | exact L | exact F1 |];
          repeat first [apply Forall_nil_2 | apply Forall_cons_2; [cbn; lia|]]).
    replace (length pre + 8)%nat with (length (pre ++ wire fr))
      by (rewrite length_app; reflexivity).
    rewrite (app_assoc pre (wire fr)).
    rewrite IH; [reflexivity | exact C | | exact F | exact T | cbn in Fu; lia].
    cbn [self with_self cells set_cells]. now rewrite write_frame_length.
Qed.

(** A buffer of whole frames (index at least 1) followed by 1 to 6 stray
    bytes: [read_cells_volts] raises [struct.error], but only after the
    cell list has been re-created where its length was off and the whole
    frames have been written into it. *)
Theorem read_cells_volts_writes_then_raises (utils : Utils) (w : World) (n : Z)
    (frames : list CellFrame) (tail : list byte) :
  cell_count (self w) = Some n ->
  0 <= n ->
  (6 <= length (pending (bus w)))%nat ->
  concat (take 6 (pending (bus w))) = concat (map wire frames) ++ tail ->
  (0 < length tail < 7)%nat ->
  Forall (fun fr => 1 <= frame_index fr) frames ->
  let before :=
    if Z.of_nat (length (cells (self w))) =? n then cells (self w)
    else replicate (Z.to_nat n) (Cell.new true) in
  exists w',
    read_cells_volts utils (Some TheBus) w = Raise StructError w' /\
    cells (self w') = write_frames utils n frames before.
Proof.
  intros C N P B T F before.
  assert (Lb : Z.of_nat (length before) = n).
  { subst before. destruct (Z.eqb_spec (Z.of_nat (length (cells (self w)))) n) as [H|H];
      [exact H|]. rewrite length_replicate. lia. }
  assert (Fu : (length frames <
                length (concat (map wire frames) ++ tail))%nat).
  { rewrite length_app, length_concat_wire. lia. }
  unfold read_cells_volts. do 2 pure_step. cbn [self with_calls]. rewrite C.
  pure_step.
  erewrite bind_Ret by (apply read_bus_data_daly_take; cbn; lia).
  cbn [is_False bus with_calls]. rewrite B. pure_step.
  cbn [self with_bus with_calls]. fold (lowMin utils). subst before.
  destruct (Z.of_nat (length (cells (self w))) =? n) eqn:Q.
  - pure_step.
    erewrite bind_Raise
      by (apply (read_frames_writes_then_raises utils n frames tail []);
          [ exact C | now apply Z.eqb_eq in Q | exact F | exact T | exact Fu ]).
    eexists. split; reflexivity.
  - pure_step.
    erewrite bind_Raise
      by (apply (read_frames_writes_then_raises utils n frames tail []);
          [ exact C | exact Lb | exact F | exact T | exact Fu ]).
    eexists. split; reflexivity.
Qed.

Lemma read_cells_volts_writes_then_raises_witness :
  let w := world_of (set_cells four_cells (set_cell_count (Some 4) daly0))
             [ [x01; x0c; x80; x0c; x80; x0c; x80; x00]; [x02; x0c; x80]; [];
               []; []; [] ] in
  let fr := {| cf_index := x01; cf_hi0 := x0c; cf_lo0 := x80; cf_hi1 := x0c;
               cf_lo1 := x80; cf_hi2 := x0c; cf_lo2 := x80; cf_pad := x00 |} in
  exists w',
    read_cells_volts utils0 (Some TheBus) w = Raise StructError w' /\
    cells (self w') = write_frames utils0 4 [fr] four_cells.
Proof.
  apply (read_cells_volts_writes_then_raises utils0
           (world_of (set_cells four_cells (set_cell_count (Some 4) daly0))
              [ [x01; x0c; x80; x0c; x80; x0c; x80; x00]; [x02; x0c; x80]; [];
                []; []; [] ])
           4
           [ {| cf_index := x01; cf_hi0 := x0c; cf_lo0 := x80; cf_hi1 := x0c;
                cf_lo1 := x80; cf_hi2 := x0c; cf_lo2 := x80; cf_pad := x00 |} ]
           [x02; x0c; x80]);
    [ reflexivity | lia | cbn; lia | reflexivity | cbn; lia
    | repeat first [apply Forall_nil_2 | apply Forall_cons_2; [vm_compute; discriminate|]] ].
Defined.

(** [read_cells_volts] asks for six frames whatever [cell_count] is: with
    a known count and fewer than six frames on the bus it sends its request
    and never returns; the cell list is not touched. *)
Theorem read_cells_volts_starved (utils : Utils) (w : World) (n : Z) :
  cell_count (self w) = Some n ->
  (length (pending (bus w)) < 6)%nat ->
  read_cells_volts utils (Some TheBus) w =
    Blocked
      (with_bus {| sent := sent (bus w) ++ [command_cell_volts (self w)];
                   pending := [] |}
         (with_calls (calls w ++ [Call_read_cells_volts]) w)).
Proof.
  intros C P.
  unfold read_cells_volts. do 2 pure_step. cbn [self with_calls]. rewrite C.
  pure_step. apply bind_Blocked.
  apply (read_bus_data_daly_starved (command_cell_volts (self w)) 6
           (with_calls (calls w ++ [Call_read_cells_volts]) w)).
  right. exact P.
Qed.

Lemma read_cells_volts_starved_witness :
  let w := world_of (set_cell_count (Some 4) daly0)
             [ [x01; x0c; xe4; x0c; xe4; x0c; xe4; x00];
               [x02; x0c; xe4; x00; x00; x00; x00; x00] ] in
  read_cells_volts utils0 (Some TheBus) w =
    Blocked
      (with_bus {| sent := [command_cell_volts daly0]; pending := [] |}
         (with_calls [Call_read_cells_volts] w)).
Proof.
  apply (read_cells_volts_starved utils0
           (world_of (set_cell_count (Some 4) daly0)
              [ [x01; x0c; xe4; x0c; xe4; x0c; xe4; x00];
                [x02; x0c; xe4; x00; x00; x00; x00; x00] ]) 4);
    [reflexivity | cbn; lia].
Defined.

(** ** The cell list has [cell_count] cells *)

Lemma shape_set_cell_voltage (cellnum : Z) (v : option float) :
  preserves cells_shape (set_cell_voltage cellnum v).
Proof.
  intros w. unfold set_cell_voltage. erewrite bind_Ret by reflexivity.
  destruct (list_index _ _) as [k|]; [|reflexivity].
  unfold cells_shape. cbn. now rewrite length_alter.
Qed.

Lemma shape_store_frame (frame : Z) (lowMin' : float) (frameCell : list (Z * Z)) :
  preserves cells_shape (store_frame frame lowMin' frameCell).
Proof.
  induction frameCell as [|[idx raw] rest IH]; cbn [store_frame];
    [apply preserves_ret|].
  apply preserves_bind; [apply preserves_attr|]. intros [n|]; [|apply preserves_raise].
  destruct (_ >=? _); [apply preserves_ret|].
  apply preserves_bind; [apply shape_set_cell_voltage|]. intros _. exact IH.
Qed.

Lemma shape_read_frames (fuel : nat) (data : list byte) (lowMin' : float)
    (bufIdx : nat) :
  preserves cells_shape (read_frames fuel data lowMin' bufIdx).
Proof.
  revert bufIdx. induction fuel as [|fuel IH]; intros bufIdx; cbn [read_frames];
    destruct (_ <? _)%nat; try apply preserves_ret.
  destruct (unpack_from _ _ _) as [vs|e]; [|apply preserves_raise].
  repeat match goal with
         | |- preserves _ (match ?x with _ => _ end) => destruct x
         end; try apply preserves_raise.
  apply preserves_bind; [apply shape_store_frame|]. intros _. apply IH.
Qed.

(** Once its six frames have arrived, [read_cells_volts] leaves a cell
    list of exactly [cell_count] cells (none for a negative count),
    whatever the frames hold and whether the decoding returns or raises;
    [cell_count] itself is not changed. *)
Theorem read_cells_volts_cell_list (utils : Utils) (w : World) (n : Z) :
  cell_count (self w) = Some n ->
  (6 <= length (pending (bus w)))%nat ->
  let o := read_cells_volts utils (Some TheBus) w in
  length (cells (self (final o))) = Z.to_nat n /\
  cell_count (self (final o)) = Some n.
Proof.
  intros C P. cbv zeta.
  unfold read_cells_volts. do 2 pure_step. cbn [self with_calls]. rewrite C.
  pure_step.
  erewrite bind_Ret by (apply read_bus_data_daly_take; cbn; lia).
  cbn [is_False bus with_calls]. pure_step.
  cbn [self with_bus with_calls].
  match goal with
  | |- context [(?re ≫= ?k) ?w0] =>
      assert (K : forall w1, cells_shape (final (k tt w1)) = cells_shape w1)
  end.
  { intros w1. apply (preserves_bind cells_shape);
      [apply shape_read_frames | intros _; apply preserves_ret]. }
  assert (G : forall w2 : World,
            cells_shape w2 = (Z.to_nat n, Some n) ->
            length (cells (self w2)) = Z.to_nat n /\ cell_count (self w2) = Some n).
  { intros w2 [= H1 H2]. now split. }
  destruct (Z.eqb_spec (Z.of_nat (length (cells (self w)))) n) as [L|L];
    pure_step; apply G; rewrite K; unfold cells_shape; cbn;
    rewrite ?length_replicate, ?C; f_equal; lia.
Qed.

Lemma read_cells_volts_cell_list_witness :
  let w := world_of (set_cells four_cells (set_cell_count (Some 2) daly0))
             [wire cell_frame_zero; [x01]; []; []; []; []] in
  let o := read_cells_volts utils0 (Some TheBus) w in
  length (cells (self (final o))) = Z.to_nat 2 /\
  cell_count (self (final o)) = Some 2.
Proof.
  apply (read_cells_volts_cell_list utils0
           (world_of (set_cells four_cells (set_cell_count (Some 2) daly0))
              [wire cell_frame_zero; [x01]; []; []; []; []]) 2);
    [reflexivity | cbn; lia].
Defined.

(** ** [read_alarm_data] touches the protection flags only *)

(** An alarm frame of at least 8 bytes: [read_alarm_data] sends one alarm
    request, takes one frame, and replaces all eight conditions of
    [protection] by the levels of the new frame, whatever they were; every
    level is 0, 1 or 2, the last five bytes of the frame play no part, and
    no other attribute changes. *)
Theorem read_alarm_data_only_protection (w : World)
    (al_volt al_temp al_crnt_soc al_diff al_mos al_misc1 al_misc2 al_fault : byte)
    (tl : list byte) (rest : list (list byte)) :
  pending (bus w) =
    (al_volt :: al_temp :: al_crnt_soc :: al_diff :: al_mos :: al_misc1
     :: al_misc2 :: al_fault :: tl) :: rest ->
  let p := alarm_levels al_volt al_temp al_crnt_soc in
  read_alarm_data (Some TheBus) w =
    Ret true
      (with_self (set_protection p (self w))
         (with_bus {| sent := sent (bus w) ++ [command_alarm (self w)];
                      pending := rest |}
            (with_calls (calls w ++ [Call_read_alarm_data]) w))) /\
  Forall (fun v => v = Some 0 \/ v = Some 1 \/ v = Some 2)
    [ Protection.high_voltage p; Protection.low_voltage p;
      Protection.high_charge_temp p; Protection.low_charge_temp p;
      Protection.high_temperature p; Protection.low_temperature p;
      Protection.high_charge_current p; Protection.low_soc p ].
Proof.
  intros E p. split.
  - unfold read_alarm_data. do 2 pure_step. bus_step. cbn [is_False].
    change (unpack_from ">bbbbbbbb" _ 0)
      with (Ok [VInt (int_be [al_volt]); VInt (int_be [al_temp]);
                VInt (int_be [al_crnt_soc]); VInt (int_be [al_diff]);
                VInt (int_be [al_mos]); VInt (int_be [al_misc1]);
                VInt (int_be [al_misc2]); VInt (int_be [al_fault])]).
    cbv beta iota.
    destruct (masks_select_bits al_volt) as (V48 & V15 & V128 & V64 & _).
    destruct (masks_select_bits al_temp)
      as (_ & _ & T128 & T64 & T32 & T16 & T8 & T4 & T2 & T1).
    destruct (masks_select_bits al_crnt_soc)
      as (_ & _ & C128 & C64 & _ & _ & C8 & C4 & C2 & C1).
    cbv zeta in *.
    rewrite V48, V15, V128, V64, T128, T64, T32, T16, T8, T4, T2, T1,
      C128, C64, C8, C4, C2, C1.
    rewrite !severity_level. reflexivity.
  - subst p. unfold alarm_levels, level. cbn [Protection.high_voltage
      Protection.low_voltage Protection.high_charge_temp Protection.low_charge_temp
      Protection.high_temperature Protection.low_temperature
      Protection.high_charge_current Protection.low_soc].
    repeat (apply Forall_cons_2;
            [ repeat match goal with
                     | |- context [if ?b then _ else _] => destruct b
                     end; auto |]).
    apply Forall_nil_2.
Qed.

Lemma read_alarm_data_only_protection_witness :
  let w := world_of daly0 [alarm_frame] in
  let p := alarm_levels x30 x02 x40 in
  read_alarm_data (Some TheBus) w =
    Ret true
      (with_self (set_protection p daly0)
         (with_bus {| sent := [command_alarm daly0]; pending := [] |}
            (with_calls [Call_read_alarm_data] w))) /\
  Forall (fun v => v = Some 0 \/ v = Some 1 \/ v = Some 2)
    [ Protection.high_voltage p; Protection.low_voltage p;
      Protection.high_charge_temp p; Protection.low_charge_temp p;
      Protection.high_temperature p; Protection.low_temperature p;
      Protection.high_charge_current p; Protection.low_soc p ].
Proof.
  apply (read_alarm_data_only_protection (world_of daly0 [alarm_frame])
           x30 x02 x40 x00 x00 x00 x00 x00 [] []); reflexivity.
Defined.
